(** * SafeCircle payment relay (server.js): the two POST handlers

    A shallow embedding of [src/server.js]: the handlers registered for
    [POST /create-mobile-money-payment] and [POST /verify-mobile-money-payment],
    together with the part of the JavaScript runtime they call
    (truthiness, [ToString], [parseFloat], [Number.prototype.toString],
    [RegExp.prototype.test] for the one pattern of the file, property
    access, [URLSearchParams.append], [fetch]). *)

From Stdlib Require Import ZArith NArith List Bool String Ascii Lia.
From Stdlib Require Import SpecFloat.
Import ListNotations.

Local Open Scope string_scope.
Local Open Scope list_scope.
Local Open Scope Z_scope.

(** ** Strings

    A JavaScript string is a sequence of UTF-16 code units. *)

Definition JsString := list N.

(** The string literals of the source are ASCII. *)
Fixpoint lit (s : string) : JsString :=
  match s with
  | EmptyString => []
  | String c s' => N_of_ascii c :: lit s'
  end.

Fixpoint str_eqb (a b : JsString) : bool :=
  match a, b with
  | [], [] => true
  | x :: a', y :: b' => N.eqb x y && str_eqb a' b'
  | _, _ => false
  end.

Fixpoint starts_with (prefix s : JsString) : bool :=
  match prefix, s with
  | [], _ => true
  | p :: prefix', c :: s' => N.eqb p c && starts_with prefix' s'
  | _ :: _, [] => false
  end.

(** [String.prototype.includes(search)] *)
Fixpoint includes (s search : JsString) : bool :=
  starts_with search s ||
  match s with
  | [] => false
  | _ :: s' => includes s' search
  end.

Definition is_digit (c : N) : bool := (48 <=? c)%N && (c <=? 57)%N.

(** [/^\d{10}$/.test(s)]: the pattern has no flags, so [\d] is [0-9],
    [^] is the start and [$] the end of the input. *)
Fixpoint match_digits (n : nat) (s : JsString) : option JsString :=
  match n with
  | O => Some s
  | S n' =>
      match s with
      | c :: s' => if is_digit c then match_digits n' s' else None
      | [] => None
      end
  end.

Definition regex_test_10_digits (s : JsString) : bool :=
  match match_digits 10 s with
  | Some [] => true
  | _ => false
  end.

(** Conversion to a USVString (WebIDL), applied by [URLSearchParams.append]
    to both of its arguments: an unpaired surrogate becomes U+FFFD. *)
Definition is_high_surrogate (c : N) : bool := (55296 <=? c)%N && (c <=? 56319)%N.
Definition is_low_surrogate (c : N) : bool := (56320 <=? c)%N && (c <=? 57343)%N.

Fixpoint to_usv (s : JsString) : JsString :=
  match s with
  | [] => []
  | c :: s' =>
      if is_high_surrogate c then
        match s' with
        | d :: s'' =>
            if is_low_surrogate d then c :: d :: to_usv s''
            else 65533%N :: to_usv s'
        | [] => [65533%N]
        end
      else if is_low_surrogate c then 65533%N :: to_usv s'
      else c :: to_usv s'
  end.

(** ** Numbers

    A JavaScript Number is an IEEE 754 binary64 value: [spec_float] at
    precision 53 and maximal exponent 1024. *)

Definition prec : Z := 53.
Definition emax : Z := 1024.

Definition NaN : spec_float := S754_nan.

Definition isNaN (x : spec_float) : bool :=
  match x with
  | S754_nan => true
  | _ => false
  end.

(** [x <= 0] on Numbers: false when [x] is NaN. *)
Definition le_zero (x : spec_float) : bool := SFleb x (S754_zero false).

(** The Number nearest to [m * 10 ^ e10] (ties to even), with the sign
    [neg]: the rounding of StringNumericValue. *)
Definition round_decimal (neg : bool) (m : positive) (e10 : Z) : spec_float :=
  if 0 <=? e10 then
    binary_normalize prec emax (cond_Zopp neg (Zpos m * 10 ^ e10)) 0 false
  else
    let '(q, e', l) := SFdiv_core_binary prec emax (Zpos m) 0 (10 ^ (- e10)) 0 in
    binary_round_aux prec emax neg q e' l.

(** WhiteSpace and LineTerminator code points, as stripped by TrimString. *)
Definition is_white_space (c : N) : bool :=
  ((9 <=? c) && (c <=? 13) || (c =? 32) || (c =? 160) || (c =? 5760)
   || (8192 <=? c) && (c <=? 8202) || (c =? 8232) || (c =? 8233)
   || (c =? 8239) || (c =? 8287) || (c =? 12288) || (c =? 65279))%N.

Fixpoint trim_start (s : JsString) : JsString :=
  match s with
  | c :: s' => if is_white_space c then trim_start s' else s
  | [] => []
  end.

(** The longest prefix of decimal digits, and what follows it. *)
Fixpoint span_digits (s : JsString) : JsString * JsString :=
  match s with
  | c :: s' =>
      if is_digit c then let (ds, r) := span_digits s' in (c :: ds, r)
      else ([], s)
  | [] => ([], [])
  end.

Definition digits_value (ds : JsString) : Z :=
  fold_left (fun acc c => 10 * acc + (Z.of_N c - 48)) ds 0.

(** The value of the ExponentPart that [s] starts with, 0 when [s] starts
    with none: the longest prefix that is a literal stops before it. *)
Definition parse_exponent (s : JsString) : Z :=
  match s with
  | c :: s' =>
      if ((c =? 101) || (c =? 69))%N then
        match s' with
        | d :: s'' =>
            if (d =? 43)%N then
              digits_value (fst (span_digits s''))
            else if (d =? 45)%N then
              - digits_value (fst (span_digits s''))
            else digits_value (fst (span_digits s'))
        | [] => 0
        end
      else 0
  | [] => 0
  end.

Definition decimal_number (neg : bool) (digits : JsString) (e10 : Z) : spec_float :=
  match digits_value digits with
  | Zpos m => round_decimal neg m e10
  | _ => S754_zero neg
  end.

(** StrUnsignedDecimalLiteral, longest prefix. *)
Definition parse_unsigned (neg : bool) (s : JsString) : spec_float :=
  if starts_with (lit "Infinity") s then S754_infinity neg
  else
    let (ip, r1) := span_digits s in
    match ip, r1 with
    | [], c :: r2 =>
        if (c =? 46)%N then
          let (fp, r3) := span_digits r2 in
          match fp with
          | [] => NaN
          | _ => decimal_number neg fp (parse_exponent r3 - Z.of_nat (List.length fp))
          end
        else NaN
    | [], [] => NaN
    | _, c :: r2 =>
        if (c =? 46)%N then
          let (fp, r3) := span_digits r2 in
          decimal_number neg (ip ++ fp) (parse_exponent r3 - Z.of_nat (List.length fp))
        else decimal_number neg ip (parse_exponent r1)
    | _, [] => decimal_number neg ip 0
    end.

(** [parseFloat] on a string (its argument after [ToString]). *)
Definition parseFloat (s : JsString) : spec_float :=
  match trim_start s with
  | c :: t =>
      if (c =? 43)%N then parse_unsigned false t
      else if (c =? 45)%N then parse_unsigned true t
      else parse_unsigned false (c :: t)
  | [] => NaN
  end.

(** *** Number::toString, radix 10 *)

Fixpoint digits_aux (fuel : nat) (n : Z) (acc : JsString) : JsString :=
  match fuel with
  | O => acc
  | S fuel' =>
      let acc' := Z.to_N (48 + n mod 10) :: acc in
      if n / 10 =? 0 then acc' else digits_aux fuel' (n / 10) acc'
  end.

(** The decimal digits of a non-negative integer. *)
Definition decimal_digits (n : Z) : JsString :=
  digits_aux (S (Z.to_nat (Z.log2 n))) n [].

Fixpoint strip_zeros_rev (r : JsString) : JsString :=
  match r with
  | c :: r' => if (c =? 48)%N then strip_zeros_rev r' else r
  | [] => []
  end.

Definition strip_trailing_zeros (s : JsString) : JsString :=
  rev (strip_zeros_rev (rev s)).

Section Shortest.
(** [x] is finite and positive, of exact value [num / den]. *)
Variable x : spec_float.
Variables num den : Z.

(** [10 ^ n <= num / den] *)
Definition ge_pow10 (n : Z) : bool :=
  if 0 <=? n then den * 10 ^ n <=? num else den <=? num * 10 ^ (- n).

Fixpoint first_above (fuel : nat) (n : Z) : Z :=
  match fuel with
  | O => n
  | S fuel' => if ge_pow10 n then first_above fuel' (n + 1) else n
  end.

(** The [n] with [10 ^ (n - 1) <= num / den < 10 ^ n]. *)
Definition decimal_exponent : Z :=
  first_above 4 ((Z.log2 num - Z.log2 den) * 30103 / 100000 - 1).

(** [floor (num / den / 10 ^ scale)] *)
Definition scaled_floor (scale : Z) : Z :=
  if 0 <=? scale then num / (den * 10 ^ scale)
  else (num * 10 ^ (- scale)) / den.

(** [num / den] compared with the midpoint [(lo + 1/2) * 10 ^ scale]. *)
Definition against_midpoint (lo scale : Z) : comparison :=
  if 0 <=? scale then 2 * num ?= (2 * lo + 1) * 10 ^ scale * den
  else 2 * num * 10 ^ (- scale) ?= (2 * lo + 1) * den.

Definition round_trips (s scale : Z) : bool :=
  match s with
  | Zpos p => SFeqb (round_decimal false p scale) x
  | _ => false
  end.

(** The [k]-digit decimal that reads back as [x], if there is one:
    the closest to [x], the even one on a tie. *)
Definition candidate (n0 k : Z) : option (Z * Z) :=
  let scale := n0 - k in
  let lo := scaled_floor scale in
  let hi := lo + 1 in
  match round_trips lo scale, round_trips hi scale with
  | true, true =>
      Some (match against_midpoint lo scale with
            | Lt => lo
            | Gt => hi
            | Eq => if Z.even lo then lo else hi
            end, scale)
  | true, false => Some (lo, scale)
  | false, true => Some (hi, scale)
  | false, false => None
  end.

Fixpoint shortest_from (fuel : nat) (n0 k : Z) : Z * Z :=
  match fuel with
  | O => (scaled_floor (n0 - k), n0 - k)
  | S fuel' =>
      match candidate n0 k with
      | Some r => r
      | None => shortest_from fuel' n0 (k + 1)
      end
  end.

(** [(s, scale)] with [s * 10 ^ scale] reading back as [x] and [s] of
    as few digits as possible (17 always suffice for binary64). *)
Definition shortest_decimal : Z * Z :=
  shortest_from 17 decimal_exponent 1.
End Shortest.

Definition repeat_zero (n : Z) : JsString := repeat 48%N (Z.to_nat n).

(** Steps 5 to 10 of Number::toString for a positive finite [x]. *)
Definition positive_to_string (x : spec_float) (m : positive) (e : Z) : JsString :=
  let num := if 0 <=? e then Zpos m * 2 ^ e else Zpos m in
  let den := if 0 <=? e then 1 else 2 ^ (- e) in
  let (s, scale) := shortest_decimal x num den in
  let all := decimal_digits s in
  let ds := strip_trailing_zeros all in
  let k := Z.of_nat (List.length ds) in
  let n := scale + Z.of_nat (List.length all) in
  if (k <=? n) && (n <=? 21) then ds ++ repeat_zero (n - k)
  else if (0 <? n) && (n <=? 21) then
    firstn (Z.to_nat n) ds ++ lit "." ++ skipn (Z.to_nat n) ds
  else if (-6 <? n) && (n <=? 0) then
    lit "0." ++ repeat_zero (- n) ++ ds
  else
    let ex := (if 0 <=? n - 1 then lit "e+" else lit "e-")
              ++ decimal_digits (Z.abs (n - 1)) in
    match ds with
    | [d] => d :: ex
    | d :: ds' => d :: lit "." ++ ds' ++ ex
    | [] => ex
    end.

Definition number_to_string (x : spec_float) : JsString :=
  match x with
  | S754_nan => lit "NaN"
  | S754_zero _ => lit "0"
  | S754_infinity false => lit "Infinity"
  | S754_infinity true => lit "-Infinity"
  | S754_finite false m e => positive_to_string x m e
  | S754_finite true m e =>
      lit "-" ++ positive_to_string (S754_finite false m e) m e
  end.

(** ** Values

    What [express.json()], [express.urlencoded()] and [response.json()]
    hand to the handlers: JSON values, and [undefined] for a property
    that is absent.  An object is the list of its own properties; a
    look-up takes the first entry of a key. *)

#[warnings="-register-all"] Inductive JsValue : Type :=
| JUndefined
| JNull
| JBool (b : bool)
| JNumber (x : spec_float)
| JString (s : JsString)
| JArray (items : list JsValue)
| JObject (props : list (JsString * JsValue)).

Inductive JsError : Type :=
| Error (message : JsString)
| TypeError (message : JsString)
| SyntaxError (message : JsString).

(** [error.message] *)
Definition error_message (e : JsError) : JsString :=
  match e with
  | Error m | TypeError m | SyntaxError m => m
  end.

(** The outcome of evaluating an expression or awaiting a promise. *)
Inductive Completion (A : Type) : Type :=
| Normal (a : A)
| Throw (e : JsError).
Arguments Normal {A} a.
Arguments Throw {A} e.

(** ToBoolean *)
Definition truthy (v : JsValue) : bool :=
  match v with
  | JUndefined | JNull => false
  | JBool b => b
  | JNumber (S754_zero _) | JNumber S754_nan => false
  | JNumber _ => true
  | JString [] => false
  | JString _ => true
  | JArray _ | JObject _ => true
  end.

Fixpoint own_property (props : list (JsString * JsValue)) (key : JsString)
  : option JsValue :=
  match props with
  | [] => None
  | (k, v) :: props' => if str_eqb k key then Some v else own_property props' key
  end.

Definition has_own_property (props : list (JsString * JsValue)) (key : JsString) : bool :=
  match own_property props key with
  | Some _ => true
  | None => false
  end.

(** [v.key] for the keys the handlers read (from_payer, amount,
    transaction_id, isError, message, data, status): none of them is a
    property of a prototype, of an array or of a string, so only an object's
    own property can answer; reading a property of [undefined] or [null]
    throws. *)
Definition Get (v : JsValue) (key : string) : Completion JsValue :=
  match v with
  | JUndefined =>
      Throw (TypeError (lit "Cannot read properties of undefined (reading '"
                        ++ lit key ++ lit "')"))
  | JNull =>
      Throw (TypeError (lit "Cannot read properties of null (reading '"
                        ++ lit key ++ lit "')"))
  | JObject props =>
      match own_property props (lit key) with
      | Some p => Normal p
      | None => Normal JUndefined
      end
  | _ => Normal JUndefined
  end.

(** [v?.key] *)
Definition GetOptional (v : JsValue) (key : string) : Completion JsValue :=
  match v with
  | JUndefined | JNull => Normal JUndefined
  | _ => Get v key
  end.

(** ToString.  An array goes through [Array.prototype.join]; an object
    through OrdinaryToPrimitive: a parsed object has no callable property
    of its own, so an own [toString] hides [Object.prototype.toString] and
    the conversion throws. *)
Fixpoint ToString (v : JsValue) : Completion JsString :=
  match v with
  | JUndefined => Normal (lit "undefined")
  | JNull => Normal (lit "null")
  | JBool true => Normal (lit "true")
  | JBool false => Normal (lit "false")
  | JNumber x => Normal (number_to_string x)
  | JString s => Normal s
  | JArray items =>
      (fix join (l : list JsValue) (first : bool) : Completion JsString :=
         match l with
         | [] => Normal []
         | e :: l' =>
             match (match e with
                    | JUndefined | JNull => Normal []
                    | _ => ToString e
                    end) with
             | Throw err => Throw err
             | Normal s =>
                 match join l' false with
                 | Throw err => Throw err
                 | Normal r => Normal ((if first then [] else lit ",") ++ s ++ r)
                 end
             end
         end) items true
  | JObject props =>
      if has_own_property props (lit "toString")
      then Throw (TypeError (lit "Cannot convert object to primitive value"))
      else Normal (lit "[object Object]")
  end.

(** [v.substring(from, to)]: only a string has the method. *)
Definition substring (what : string) (v : JsValue) (from : nat) (to : option nat)
  : Completion JsString :=
  match v with
  | JString s =>
      Normal (match to with
              | Some t => skipn (Nat.min from t) (firstn (Nat.max from t) s)
              | None => skipn from s
              end)
  | JUndefined =>
      Throw (TypeError (lit "Cannot read properties of undefined (reading 'substring')"))
  | JNull =>
      Throw (TypeError (lit "Cannot read properties of null (reading 'substring')"))
  | _ => Throw (TypeError (lit what ++ lit ".substring is not a function"))
  end.

(** ** The world outside the handlers *)

(** [process.env], read at start-up ([MONEYUNIFY_AUTH_ID]) and in the
    [catch] blocks ([NODE_ENV]): a variable is a string or is not set. *)
Record Config : Type := {
  MONEYUNIFY_AUTH_ID : option JsString;
  NODE_ENV : option JsString
}.

Definition MONEYUNIFY_API_URL : JsString := lit "https://api.moneyunify.one".

(** [!MONEYUNIFY_AUTH_ID] *)
Definition auth_id_missing (cfg : Config) : bool :=
  match MONEYUNIFY_AUTH_ID cfg with
  | None | Some [] => true
  | Some _ => false
  end.

(** [URLSearchParams]: an ordered list of name-value pairs. *)
Definition URLSearchParams := list (JsString * JsString).

(** The scalar values of a string without unpaired surrogates. *)
Fixpoint code_points (s : JsString) : list N :=
  match s with
  | [] => []
  | c :: s' =>
      if is_high_surrogate c then
        match s' with
        | d :: s'' =>
            if is_low_surrogate d
            then (65536 + (c - 55296) * 1024 + (d - 56320))%N :: code_points s''
            else c :: code_points s'
        | [] => [c]
        end
      else c :: code_points s'
  end.

Definition utf8 (cp : N) : list N :=
  (if cp <? 128 then [cp]
   else if cp <? 2048 then [192 + cp / 64; 128 + cp mod 64]
   else if cp <? 65536 then
     [224 + cp / 4096; 128 + (cp / 64) mod 64; 128 + cp mod 64]
   else
     [240 + cp / 262144; 128 + (cp / 4096) mod 64;
      128 + (cp / 64) mod 64; 128 + cp mod 64])%N.

Definition hex_digit (n : N) : N := (if n <? 10 then 48 + n else 55 + n)%N.

(** A byte in the application/x-www-form-urlencoded serialisation: letters,
    digits and [*-._] stay, a space becomes [+], the rest is
    percent-encoded. *)
Definition urlencoded_byte (b : N) : JsString :=
  (if b =? 32 then [43]
   else if is_digit b || (65 <=? b) && (b <=? 90) || (97 <=? b) && (b <=? 122)
           || (b =? 42) || (b =? 45) || (b =? 46) || (b =? 95)
   then [b]
   else [37; hex_digit (b / 16); hex_digit (b mod 16)])%N.

Definition urlencoded (s : JsString) : JsString :=
  flat_map urlencoded_byte (flat_map utf8 (code_points s)).

(** [params.toString()] *)
Fixpoint URLSearchParams_toString (params : URLSearchParams) : JsString :=
  match params with
  | [] => []
  | (name, value) :: rest =>
      urlencoded name ++ lit "=" ++ urlencoded value
      ++ match rest with
         | [] => []
         | _ => lit "&" ++ URLSearchParams_toString rest
         end
  end.

(** The argument of a [fetch] call.  [form] is the [URLSearchParams] whose
    serialisation, [formData.toString()], is the body of the request. *)
Record OutboundRequest : Type := {
  url : JsString;
  method : JsString;
  headers : list (JsString * JsString);
  form : URLSearchParams
}.

(** [init.body] *)
Definition request_body (r : OutboundRequest) : JsString :=
  URLSearchParams_toString (form r).

(** What the provider answers: the status line, the [content-type] header
    ([headers.get] gives [null] when there is none), and what reading the
    body as text and as JSON produce; either read may fail. *)
Record Response : Type := {
  status : Z;
  content_type : option JsString;
  text : Completion JsString;
  json : Completion JsValue
}.

(** [response.ok] *)
Definition ok (r : Response) : bool := (200 <=? status r) && (status r <=? 299).

(** [fetch] resolves with a response or rejects (network failure). *)
Definition Provider := OutboundRequest -> Completion Response.

(** What a handler sends back: [res.status(code).json(body)], with status
    200 when [res.json] is called alone.  [body] is the object handed to
    [res.json]; on the wire [JSON.stringify] leaves out a property whose
    value is [undefined]. *)
Record HttpResponse : Type := {
  status_code : Z;
  body : JsValue
}.

(** ** Handler code: exceptions, and the trace of outbound calls *)

Definition Trace := list OutboundRequest.

Definition M (A : Type) : Type := Trace -> Completion A * Trace.

Definition ret {A} (a : A) : M A := fun t => (Normal a, t).

Definition bind {A B} (m : M A) (k : A -> M B) : M B :=
  fun t =>
    match m t with
    | (Normal a, t') => k a t'
    | (Throw e, t') => (Throw e, t')
    end.

Definition throw {A} (e : JsError) : M A := fun t => (Throw e, t).

Definition lift {A} (c : Completion A) : M A := fun t => (c, t).

(** [await fetch(url, init)] *)
Definition fetch (provider : Provider) (r : OutboundRequest) : M Response :=
  fun t => (provider r, t ++ [r]).

(** [console.log] and [console.error] write to the process output, which
    no response depends on; evaluating their arguments can still throw. *)
Definition console_log {A} (_ : A) : M unit := ret tt.

Declare Scope js_scope.
Delimit Scope js_scope with js.
Notation "x <- m ;; k" := (bind m (fun x => k))
  (at level 61, m at next level, right associativity) : js_scope.
Notation "m ;; k" := (bind m (fun _ => k))
  (at level 61, right associativity) : js_scope.
Local Open Scope js_scope.

(** [params.append(name, value)] *)
Definition append (params : URLSearchParams) (name : string) (value : JsValue)
  : M URLSearchParams :=
  v <- lift (ToString value) ;;
  ret (params ++ [(lit name, to_usv v)]).

Definition request_headers : list (JsString * JsString) :=
  [ (lit "Content-Type", lit "application/x-www-form-urlencoded");
    (lit "Accept", lit "application/json") ].

(** [const { a, b } = req.body] reads [req.body.a]; it throws when
    [req.body] is [undefined] or [null]. *)
Definition destructure (req_body : JsValue) (key : string) : M JsValue :=
  match req_body with
  | JUndefined | JNull =>
      throw (TypeError (lit "Cannot destructure property '" ++ lit key
                        ++ lit "' of 'req.body' as it is undefined."))
  | _ => lift (Get req_body key)
  end.

(** An object literal [{ key: value, ... }]. *)
Definition object (fields : list (string * JsValue)) : JsValue :=
  JObject (map (fun kv => (lit (fst kv), snd kv)) fields).

Definition json_response (code : Z) (fields : list (string * JsValue)) : HttpResponse :=
  {| status_code := code; body := object fields |}.

(** [contentType && contentType.includes('application/json')], lines 119
    and 202: [null] and the empty string are falsy. *)
Definition says_json (response : Response) : bool :=
  match content_type response with
  | Some [] => false
  | Some contentType => includes contentType (lit "application/json")
  | None => false
  end.

(** Lines 116 to 125 and 199 to 208: the body of the provider's response,
    when its content type says JSON. *)
Definition read_json_body (response : Response) : M JsValue :=
  if says_json response then lift (json response)
  else
    txt <- lift (text response) ;;
    console_log txt ;;
    throw (Error (lit "Invalid response from payment provider")).

(** [process.env.NODE_ENV === 'development'] *)
Definition is_development (cfg : Config) : bool :=
  match NODE_ENV cfg with
  | Some env => str_eqb env (lit "development")
  | None => false
  end.

(** The [catch] blocks, lines 144 to 151 and 222 to 229. *)
Definition internal_error (cfg : Config) (error : JsError) : HttpResponse :=
  json_response 500
    [ ("isError", JBool true);
      ("message", JString (lit "Internal server error"));
      ("error", JString (if is_development cfg then error_message error
                         else lit "An error occurred")) ].

(** [try { ... } catch (error) { ... }] around the body of a handler *)
Definition try_catch (cfg : Config) (handler_body : M HttpResponse)
  : HttpResponse * Trace :=
  match handler_body [] with
  | (Normal r, t) => (r, t)
  | (Throw e, t) => (internal_error cfg e, t)
  end.

(** ** POST /create-mobile-money-payment, lines 51 to 152 *)

(** Lines 116 to 142: from the provider's response to the relay's. *)
Definition create_translate (response : Response) : M HttpResponse :=
  data <- read_json_body response ;;
  isError <- lift (Get data "isError") ;;
  if truthy isError || negb (ok response) then
    console_log data ;;
    message <- lift (Get data "message") ;;
    ret (json_response 400
           [ ("isError", JBool true);
             ("message", if truthy message then message
                         else JString (lit "Payment initiation failed")) ])
  else
  data_data <- lift (Get data "data") ;;
  transaction_id <- lift (Get data_data "transaction_id") ;;
  console_log transaction_id ;;
  message <- lift (Get data "message") ;;
  data_data <- lift (Get data "data") ;;
  ret (json_response 200
         [ ("isError", JBool false);
           ("message", message);
           ("data", data_data) ]).

(** Lines 53 to 114, then the translation of the response. *)
Definition create_body (cfg : Config) (provider : Provider) (req_body : JsValue)
  : M HttpResponse :=
  from_payer <- destructure req_body "from_payer" ;;
  amount <- destructure req_body "amount" ;;
  masked <- (if truthy from_payer then
               a <- lift (substring "from_payer" from_payer 0 (Some 3%nat)) ;;
               b <- lift (substring "from_payer" from_payer 7 None) ;;
               ret (a ++ lit "****" ++ b)
             else ret (lit "N/A")) ;;
  console_log (masked, amount) ;;
  if negb (truthy from_payer) || negb (truthy amount) then
    ret (json_response 400
           [ ("isError", JBool true);
             ("message", JString (lit "Missing required fields: from_payer or amount")) ])
  else
  subject <- lift (ToString from_payer) ;;
  if negb (regex_test_10_digits subject) then
    console_log from_payer ;;
    ret (json_response 400
           [ ("isError", JBool true);
             ("message", JString (lit "Invalid phone number format. Must be 10 digits (e.g., 0971234567)")) ])
  else
  input <- lift (ToString amount) ;;
  let parsedAmount := parseFloat input in
  if isNaN parsedAmount || le_zero parsedAmount then
    console_log amount ;;
    ret (json_response 400
           [ ("isError", JBool true);
             ("message", JString (lit "Invalid amount. Must be a positive number.")) ])
  else
  if auth_id_missing cfg then
    ret (json_response 500
           [ ("isError", JBool true);
             ("message", JString (lit "Payment service not configured. Please contact support.")) ])
  else
  formData <- ret [] ;;
  formData <- append formData "from_payer" from_payer ;;
  formData <- append formData "amount" (JString (number_to_string parsedAmount)) ;;
  formData <- append formData "auth_id"
                (match MONEYUNIFY_AUTH_ID cfg with
                 | Some a => JString a
                 | None => JUndefined
                 end) ;;
  formData <- append formData "webhook_url" (JString []) ;;
  response <- fetch provider
                {| url := MONEYUNIFY_API_URL ++ lit "/payments/request";
                   method := lit "POST";
                   headers := request_headers;
                   form := formData |} ;;
  create_translate response.

Definition create_mobile_money_payment (cfg : Config) (provider : Provider)
  (req_body : JsValue) : HttpResponse * Trace :=
  try_catch cfg (create_body cfg provider req_body).

(** ** POST /verify-mobile-money-payment, lines 159 to 230 *)

(** Lines 199 to 220: from the provider's response to the relay's. *)
Definition verify_translate (transaction_id : JsValue) (response : Response)
  : M HttpResponse :=
  data <- read_json_body response ;;
  data_data <- lift (Get data "data") ;;
  st <- lift (GetOptional data_data "status") ;;
  console_log (transaction_id, if truthy st then st else JString (lit "unknown")) ;;
  message <- lift (Get data "message") ;;
  data_data <- lift (Get data "data") ;;
  ret (json_response 200
         [ ("isError", JBool false);
           ("message", message);
           ("data", data_data) ]).

(** Lines 161 to 197, then the translation of the response. *)
Definition verify_body (cfg : Config) (provider : Provider) (req_body : JsValue)
  : M HttpResponse :=
  transaction_id <- destructure req_body "transaction_id" ;;
  console_log transaction_id ;;
  if negb (truthy transaction_id) then
    ret (json_response 400
           [ ("isError", JBool true);
             ("message", JString (lit "Missing required field: transaction_id")) ])
  else
  if auth_id_missing cfg then
    ret (json_response 500
           [ ("isError", JBool true);
             ("message", JString (lit "Payment service not configured. Please contact support.")) ])
  else
  formData <- ret [] ;;
  formData <- append formData "auth_id"
                (match MONEYUNIFY_AUTH_ID cfg with
                 | Some a => JString a
                 | None => JUndefined
                 end) ;;
  formData <- append formData "transaction_id" transaction_id ;;
  response <- fetch provider
                {| url := MONEYUNIFY_API_URL ++ lit "/payments/verify";
                   method := lit "POST";
                   headers := request_headers;
                   form := formData |} ;;
  verify_translate transaction_id response.

Definition verify_mobile_money_payment (cfg : Config) (provider : Provider)
  (req_body : JsValue) : HttpResponse * Trace :=
  try_catch cfg (verify_body cfg provider req_body).

(** ** The other handlers of the file *)

(** GET /health, lines 24 to 31.  [now] is what
    [new Date().toISOString()] returns when the request is served. *)
Definition health (cfg : Config) (now : JsString) : HttpResponse :=
  json_response 200
    [ ("status", JString (lit "ok"));
      ("service", JString (lit "SafeCircle Payment API"));
      ("timestamp", JString now);
      ("moneyunify_configured", JBool (negb (auth_id_missing cfg))) ].

(** GET /, lines 34 to 44. *)
Definition root : HttpResponse :=
  json_response 200
    [ ("message", JString (lit "SafeCircle Payment API"));
      ("version", JString (lit "1.0.0"));
      ("endpoints",
       object [ ("health", JString (lit "/health"));
                ("createPayment", JString (lit "/create-mobile-money-payment"));
                ("verifyPayment", JString (lit "/verify-mobile-money-payment")) ]) ].

(** The 404 handler, lines 233 to 239; [path] is [req.path]. *)
Definition not_found (path : JsString) : HttpResponse :=
  json_response 404
    [ ("isError", JBool true);
      ("message", JString (lit "Endpoint not found"));
      ("path", JString path) ].

(** The error-handling middleware, lines 242 to 249: what Express calls
    with an error that no handler caught (a request body that does not
    parse, for one). *)
Definition error_handler (cfg : Config) (err : JsError) : HttpResponse :=
  json_response 500
    [ ("isError", JBool true);
      ("message", JString (lit "Internal server error"));
      ("error", JString (if is_development cfg then error_message err
                         else lit "An error occurred")) ].

(** * Vocabulary of the properties *)

(** The relay's answer once [fetch] has settled: the translation of the
    response, or the [catch] block. *)
Definition settle (cfg : Config) (translate : Response -> M HttpResponse)
  (outcome : Completion Response) : HttpResponse :=
  match outcome with
  | Throw e => internal_error cfg e
  | Normal response =>
      match fst (translate response []) with
      | Normal r => r
      | Throw e => internal_error cfg e
      end
  end.

Definition nullish (v : JsValue) : bool :=
  match v with
  | JUndefined | JNull => true
  | _ => false
  end.

(** [data.key] where the read does not throw. *)
Definition field (data : JsValue) (key : string) : JsValue :=
  match Get data key with
  | Normal v => v
  | Throw _ => JUndefined
  end.

(** The body of the provider's response carries an error flag. *)
Definition has_error_flag (data : JsValue) : bool := truthy (field data "isError").

Definition not_configured : HttpResponse :=
  json_response 500
    [ ("isError", JBool true);
      ("message", JString (lit "Payment service not configured. Please contact support.")) ].

Definition invalid_provider_response : JsError :=
  Error (lit "Invalid response from payment provider").

(** The request passes the three checks of lines 61 to 86: [from_payer] is
    the ten-digit string [phone], and [amount] reads as the Number
    [parsedAmount], which is positive. *)
Definition valid_initiate (req_body : JsValue) (phone : JsString)
  (parsedAmount : spec_float) : Prop :=
  Get req_body "from_payer" = Normal (JString phone)
  /\ regex_test_10_digits phone = true
  /\ (exists amount input,
        Get req_body "amount" = Normal amount
        /\ truthy amount = true
        /\ ToString amount = Normal input
        /\ parseFloat input = parsedAmount)
  /\ isNaN parsedAmount = false
  /\ le_zero parsedAmount = false.

(** The call that [create_body] passes to [fetch]. *)
Definition payment_request (auth_id phone : JsString) (parsedAmount : spec_float)
  : OutboundRequest :=
  {| url := MONEYUNIFY_API_URL ++ lit "/payments/request";
     method := lit "POST";
     headers := request_headers;
     form := [ (lit "from_payer", phone);
               (lit "amount", number_to_string parsedAmount);
               (lit "auth_id", to_usv auth_id);
               (lit "webhook_url", []) ] |}.

(** The call that [verify_body] passes to [fetch] for a string
    [transaction_id]. *)
Definition verification_request (auth_id transaction_id : JsString) : OutboundRequest :=
  {| url := MONEYUNIFY_API_URL ++ lit "/payments/verify";
     method := lit "POST";
     headers := request_headers;
     form := [ (lit "auth_id", to_usv auth_id);
               (lit "transaction_id", to_usv transaction_id) ] |}.

(** The number of code units after the decimal point of a numeral. *)
Fixpoint fraction_digits (s : JsString) : nat :=
  match s with
  | [] => O
  | c :: s' => if (c =? 46)%N then List.length s' else fraction_digits s'
  end.

(** The JSON number [n], for a natural number below 2^53. *)
Definition integer (n : Z) : JsValue := JNumber (binary_normalize prec emax n 0 false).

(** The three rejections of lines 61 to 86, and that of line 165. *)
Definition missing_fields : HttpResponse :=
  json_response 400
    [ ("isError", JBool true);
      ("message", JString (lit "Missing required fields: from_payer or amount")) ].

Definition invalid_phone : HttpResponse :=
  json_response 400
    [ ("isError", JBool true);
      ("message", JString (lit "Invalid phone number format. Must be 10 digits (e.g., 0971234567)")) ].

Definition invalid_amount : HttpResponse :=
  json_response 400
    [ ("isError", JBool true);
      ("message", JString (lit "Invalid amount. Must be a positive number.")) ].

Definition missing_transaction_id : HttpResponse :=
  json_response 400
    [ ("isError", JBool true);
      ("message", JString (lit "Missing required field: transaction_id")) ].

(** An answer in the envelope of the service: an object whose first
    property is [isError], true exactly when the status is not 200. *)
Definition enveloped (h : HttpResponse) : Prop :=
  exists rest,
    body h = JObject ((lit "isError", JBool (negb (status_code h =? 200))) :: rest).

(** A string without surrogates: [URLSearchParams.append] leaves it as it
    is. *)
Definition plain (s : JsString) : Prop := Forall (fun c => (c < 55296)%N) s.

(** ** Sample configurations, requests and provider behaviours *)

Definition production : Config :=
  {| MONEYUNIFY_AUTH_ID := Some (lit "auth-0001");
     NODE_ENV := Some (lit "production") |}.

Definition development : Config :=
  {| MONEYUNIFY_AUTH_ID := Some (lit "auth-0001");
     NODE_ENV := Some (lit "development") |}.

Definition unconfigured : Config :=
  {| MONEYUNIFY_AUTH_ID := None; NODE_ENV := Some (lit "production") |}.

Definition other_secret : Config :=
  {| MONEYUNIFY_AUTH_ID := Some (lit "auth-9999");
     NODE_ENV := Some (lit "production") |}.

Definition initiation (from_payer amount : JsValue) : JsValue :=
  object [("from_payer", from_payer); ("amount", amount)].

Definition verification (transaction_id : JsValue) : JsValue :=
  object [("transaction_id", transaction_id)].

Definition quoted (s : string) : JsString := [34%N] ++ lit s ++ [34%N].

(** The answer with status [code] and the JSON value [data], whose text
    is [txt]. *)
Definition json_answer (code : Z) (txt : JsString) (data : JsValue) : Response :=
  {| status := code;
     content_type := Some (lit "application/json; charset=utf-8");
     text := Normal txt;
     json := Normal data |}.

Definition null_answer (code : Z) : Response := json_answer code (lit "null") JNull.

Definition completed : Response :=
  json_answer 200
    (lit "{" ++ quoted "data" ++ lit ":{" ++ quoted "status" ++ lit ":"
     ++ quoted "completed" ++ lit "}}")
    (object [("data", object [("status", JString (lit "completed"))])]).

Definition initiated : Response :=
  json_answer 200
    (lit "{" ++ quoted "isError" ++ lit ":false," ++ quoted "message" ++ lit ":"
     ++ quoted "ok" ++ lit "," ++ quoted "data" ++ lit ":{"
     ++ quoted "transaction_id" ++ lit ":" ++ quoted "T1" ++ lit "}}")
    (object [("isError", JBool false);
             ("message", JString (lit "ok"));
             ("data", object [("transaction_id", JString (lit "T1"))])]).

Definition accepted_without_data : Response :=
  json_answer 200
    (lit "{" ++ quoted "isError" ++ lit ":false," ++ quoted "message" ++ lit ":"
     ++ quoted "ok" ++ lit "}")
    (object [("isError", JBool false); ("message", JString (lit "ok"))]).

Definition failed : Response :=
  json_answer 200
    (lit "{" ++ quoted "isError" ++ lit ":true," ++ quoted "message" ++ lit ":"
     ++ quoted "X" ++ lit "}")
    (object [("isError", JBool true); ("message", JString (lit "X"))]).

(** A gateway page instead of JSON. *)
Definition gateway_page : Response :=
  {| status := 502;
     content_type := Some (lit "text/html");
     text := Normal (lit "<html>Bad Gateway</html>");
     json := Throw (SyntaxError (lit "Unexpected token '<'")) |}.

(** A body announced as JSON that breaks off. *)
Definition truncated_json : Response :=
  {| status := 200;
     content_type := Some (lit "application/json");
     text := Normal (lit "{");
     json := Throw (SyntaxError (lit "Unexpected end of JSON input")) |}.

(** The provider that gives the same answer to every call. *)
Definition always (response : Response) : Provider := fun _ => Normal response.

(** The network fails. *)
Definition unreachable (reason : string) : Provider :=
  fun _ => Throw (TypeError (lit reason)).

(** * Properties *)

(** ** The runtime on sample inputs *)

Example parseFloat_50 :
  parseFloat (lit "50.00") = S754_finite false 7036874417766400 (-47)
  /\ number_to_string (parseFloat (lit "50.00")) = lit "50".
Proof. split; reflexivity. Qed.

Example parseFloat_prefix :
  number_to_string (parseFloat (lit "  12.5abc")) = lit "12.5"
  /\ number_to_string (parseFloat (lit "1e")) = lit "1"
  /\ number_to_string (parseFloat (lit ".5")) = lit "0.5"
  /\ parseFloat (lit "abc") = NaN
  /\ parseFloat (lit ".") = NaN
  /\ parseFloat (lit "") = NaN
  /\ parseFloat (lit "-Infinity") = S754_infinity true.
Proof. repeat split; reflexivity. Qed.

Example parseFloat_rounds :
  parseFloat (lit "0.1") = S754_finite false 7205759403792794 (-56)
  /\ number_to_string (parseFloat (lit "9007199254740993")) = lit "9007199254740992"
  /\ number_to_string (parseFloat (lit "0.30000000000000004")) = lit "0.30000000000000004"
  /\ number_to_string (parseFloat (lit "1e-400")) = lit "0"
  /\ number_to_string (parseFloat (lit "2e308")) = lit "Infinity".
Proof. repeat split; vm_compute; reflexivity. Qed.

Example number_to_string_notation :
  number_to_string (parseFloat (lit "1e21")) = lit "1e+21"
  /\ number_to_string (parseFloat (lit "123456789012345680000")) = lit "123456789012345680000"
  /\ number_to_string (parseFloat (lit "0.000001")) = lit "0.000001"
  /\ number_to_string (parseFloat (lit "0.0000001")) = lit "1e-7"
  /\ number_to_string (parseFloat (lit "5e-324")) = lit "5e-324"
  /\ number_to_string (parseFloat (lit "-1.50")) = lit "-1.5".
Proof. repeat split; vm_compute; reflexivity. Qed.

Example le_zero_samples :
  le_zero (parseFloat (lit "0")) = true
  /\ le_zero (parseFloat (lit "-0")) = true
  /\ le_zero (parseFloat (lit "-3")) = true
  /\ le_zero (parseFloat (lit "1e-400")) = true
  /\ le_zero (parseFloat (lit "0.01")) = false
  /\ le_zero NaN = false.
Proof. repeat split; vm_compute; reflexivity. Qed.

Example regex_samples :
  regex_test_10_digits (lit "0971234567") = true
  /\ regex_test_10_digits (lit "097123456") = false
  /\ regex_test_10_digits (lit "09712345678") = false
  /\ regex_test_10_digits (lit "097123456a") = false
  /\ regex_test_10_digits (lit "0971234567" ++ [10%N]) = false.
Proof. repeat split; reflexivity. Qed.

Example ToString_samples :
  ToString (JArray [JString (lit "5"); JNull; JArray [JBool true]]) = Normal (lit "5,,true")
  /\ ToString (JObject []) = Normal (lit "[object Object]")
  /\ ToString (JNumber (parseFloat (lit "50.00"))) = Normal (lit "50").
Proof. repeat split; vm_compute; reflexivity. Qed.

Example payment_request_on_the_wire :
  request_body (payment_request (lit "auth 0001/+") (lit "0971234567")
                  (parseFloat (lit "1e21")))
  = lit "from_payer=0971234567&amount=1e%2B21&auth_id=auth+0001%2F%2B&webhook_url=".
Proof. vm_compute. reflexivity. Qed.

(** ** Running the handlers *)

Ltac unfold_prefix :=
  unfold create_mobile_money_payment, verify_mobile_money_payment, try_catch,
    create_body, verify_body, destructure, append, fetch, console_log,
    bind, lift, ret, throw in *.

Ltac unfold_translate :=
  unfold create_translate, verify_translate, read_json_body, console_log,
    bind, lift, ret, throw in *.

(** Case analysis on a scrutinee of the goal that has no match inside. *)
Ltac case_step :=
  match goal with
  | |- context [match ?x with _ => _ end] =>
      lazymatch x with
      | context [match _ with _ => _ end] => fail
      | _ => destruct x eqn:?
      end
  end.

Lemma create_translate_trace (response : Response) (t : Trace) :
  create_translate response t = (fst (create_translate response []), t).
Proof.
  unfold_translate. repeat case_step; reflexivity.
Qed.

Lemma verify_translate_trace (tid : JsValue) (response : Response) (t : Trace) :
  verify_translate tid response t = (fst (verify_translate tid response []), t).
Proof.
  unfold_translate. repeat case_step; reflexivity.
Qed.

(** A handler issues no outbound call or exactly one; in the second case
    its answer is settled by what the provider does with that call. *)
Lemma create_outbound (cfg : Config) (provider : Provider) (req_body : JsValue) :
  snd (create_mobile_money_payment cfg provider req_body) = []
  \/ exists r,
       create_mobile_money_payment cfg provider req_body
       = (settle cfg create_translate (provider r), [r]).
Proof.
  unfold_prefix.
  repeat (first [rewrite create_translate_trace | case_step]; cbn [fst snd app]);
    try (left; reflexivity).
  all: match goal with
       | H : @eq (Completion Response) (_ ?r) _ |- _ =>
           right; exists r; unfold settle; rewrite H
       end.
  all: try reflexivity.
  all: destruct (fst (create_translate _ [])); reflexivity.
Qed.

Lemma verify_outbound (cfg : Config) (provider : Provider) (req_body : JsValue) :
  snd (verify_mobile_money_payment cfg provider req_body) = []
  \/ exists r tid,
       req_body <> JUndefined /\ req_body <> JNull
       /\ Get req_body "transaction_id" = Normal tid
       /\ verify_mobile_money_payment cfg provider req_body
          = (settle cfg (verify_translate tid) (provider r), [r]).
Proof.
  unfold_prefix.
  repeat (first [rewrite verify_translate_trace | case_step]; cbn [fst snd app]);
    try (left; reflexivity).
  all: match goal with
       | H : @eq (Completion Response) (_ ?r) _, G : Get _ _ = Normal ?tid |- _ =>
           right; exists r, tid; unfold settle; rewrite H
       end.
  all: repeat split; try discriminate; try assumption; try reflexivity.
  all: destruct (fst (verify_translate _ _ [])); reflexivity.
Qed.

(** When the trace of a run is the single call [r], the answer is settled
    by [provider r]. *)
Lemma create_reaches (cfg : Config) (provider : Provider) (req_body : JsValue)
  (r : OutboundRequest) :
  snd (create_mobile_money_payment cfg provider req_body) = [r] ->
  fst (create_mobile_money_payment cfg provider req_body)
  = settle cfg create_translate (provider r).
Proof.
  intros Htrace.
  destruct (create_outbound cfg provider req_body) as [Hnone | [r' Hrun]].
  - rewrite Hnone in Htrace. discriminate.
  - rewrite Hrun in *. cbn [fst snd] in *. congruence.
Qed.

Lemma verify_reaches (cfg : Config) (provider : Provider) (req_body : JsValue)
  (r : OutboundRequest) :
  snd (verify_mobile_money_payment cfg provider req_body) = [r] ->
  exists tid,
    Get req_body "transaction_id" = Normal tid
    /\ fst (verify_mobile_money_payment cfg provider req_body)
       = settle cfg (verify_translate tid) (provider r).
Proof.
  intros Htrace.
  destruct (verify_outbound cfg provider req_body)
    as [Hnone | (r' & tid & _ & _ & Htid & Hrun)].
  - rewrite Hnone in Htrace. discriminate.
  - exists tid. split; [assumption|].
    rewrite Hrun in *. cbn [fst snd] in *. congruence.
Qed.

(** ** The translation of the provider's response *)

Lemma get_field (data : JsValue) (key : string) :
  nullish data = false -> Get data key = Normal (field data key).
Proof.
  unfold field. destruct data; cbn; try discriminate; try reflexivity.
  intros _. destruct (own_property props (lit key)); reflexivity.
Qed.

Lemma get_nullish (data : JsValue) (key : string) :
  nullish data = true -> exists e, Get data key = Throw e.
Proof.
  destruct data; cbn; try discriminate; intros _; eexists; reflexivity.
Qed.

Lemma create_translate_not_json (response : Response) :
  says_json response = false ->
  fst (create_translate response [])
  = Throw (match text response with
           | Normal _ => invalid_provider_response
           | Throw e => e
           end).
Proof.
  intros Hct. unfold_translate. rewrite Hct.
  destruct (text response); reflexivity.
Qed.

Lemma verify_translate_not_json (tid : JsValue) (response : Response) :
  says_json response = false ->
  fst (verify_translate tid response [])
  = Throw (match text response with
           | Normal _ => invalid_provider_response
           | Throw e => e
           end).
Proof.
  intros Hct. unfold_translate. rewrite Hct.
  destruct (text response); reflexivity.
Qed.

Lemma verify_translate_json (tid : JsValue) (response : Response) (data : JsValue) :
  says_json response = true ->
  json response = Normal data ->
  nullish data = false ->
  fst (verify_translate tid response [])
  = Normal (json_response 200
              [ ("isError", JBool false);
                ("message", field data "message");
                ("data", field data "data") ]).
Proof.
  intros Hct Hjson Hdata. unfold_translate.
  rewrite Hct, Hjson, !(get_field data) by assumption.
  unfold GetOptional.
  destruct (field data "data") eqn:Hd; try reflexivity;
    rewrite (get_field _ "status") by reflexivity; reflexivity.
Qed.

Lemma verify_translate_nullish (tid : JsValue) (response : Response) (data : JsValue) :
  says_json response = true ->
  json response = Normal data ->
  nullish data = true ->
  exists e, fst (verify_translate tid response []) = Throw e.
Proof.
  intros Hct Hjson Hdata. unfold_translate.
  rewrite Hct, Hjson.
  destruct (get_nullish data "data" Hdata) as [e He]. rewrite He.
  exists e. reflexivity.
Qed.

Lemma create_translate_error (response : Response) (data : JsValue) :
  says_json response = true ->
  json response = Normal data ->
  nullish data = false ->
  has_error_flag data = true \/ ok response = false ->
  fst (create_translate response [])
  = Normal (json_response 400
              [ ("isError", JBool true);
                ("message", if truthy (field data "message")
                            then field data "message"
                            else JString (lit "Payment initiation failed")) ]).
Proof.
  intros Hct Hjson Hdata Hflag. unfold_translate.
  rewrite Hct, Hjson, !(get_field data) by assumption.
  replace (truthy (field data "isError") || negb (ok response)) with true.
  - destruct (truthy (field data "message")); reflexivity.
  - unfold has_error_flag in Hflag. destruct Hflag as [-> | ->]; cbn.
    + reflexivity.
    + now rewrite orb_true_r.
Qed.

Lemma create_translate_success (response : Response) (data : JsValue) :
  says_json response = true ->
  json response = Normal data ->
  nullish data = false ->
  has_error_flag data = false ->
  ok response = true ->
  nullish (field data "data") = false ->
  fst (create_translate response [])
  = Normal (json_response 200
              [ ("isError", JBool false);
                ("message", field data "message");
                ("data", field data "data") ]).
Proof.
  intros Hct Hjson Hdata Hflag Hok Hdd. unfold_translate.
  rewrite Hct, Hjson, !(get_field data) by assumption.
  unfold has_error_flag in Hflag. rewrite Hflag, Hok. cbn [negb orb].
  rewrite (get_field (field data "data")) by assumption.
  reflexivity.
Qed.

Lemma create_translate_no_data (response : Response) (data : JsValue) :
  says_json response = true ->
  json response = Normal data ->
  has_error_flag data = false ->
  ok response = true ->
  nullish data = true \/ nullish (field data "data") = true ->
  exists message,
    fst (create_translate response []) = Throw (TypeError message).
Proof.
  intros Hct Hjson Hflag Hok Hno. unfold_translate.
  rewrite Hct, Hjson.
  destruct (nullish data) eqn:Hdata.
  - destruct data; try discriminate; cbn; eexists; reflexivity.
  - destruct Hno as [Hno | Hno]; [discriminate|].
    rewrite !(get_field data) by assumption.
    unfold has_error_flag in Hflag. rewrite Hflag, Hok. cbn [negb orb].
    destruct (field data "data"); try discriminate; cbn; eexists; reflexivity.
Qed.

(** ** Strings without surrogates *)

Lemma to_usv_plain (s : JsString) : plain s -> to_usv s = s.
Proof.
  induction 1 as [|c s Hc Hs IH]; [reflexivity|].
  cbn [to_usv].
  assert (is_high_surrogate c = false) as ->
    by (unfold is_high_surrogate; apply andb_false_intro1, N.leb_gt; exact Hc).
  assert (is_low_surrogate c = false) as ->
    by (unfold is_low_surrogate; apply andb_false_intro1, N.leb_gt; lia).
  now rewrite IH.
Qed.

Lemma plain_lit (s : string) : plain (lit s).
Proof.
  induction s as [|c s IH]; constructor; [|exact IH].
  pose proof (N_ascii_bounded c). lia.
Qed.

Lemma plain_app (a b : JsString) : plain a -> plain b -> plain (a ++ b).
Proof. intros Ha Hb. apply Forall_app. split; assumption. Qed.

Lemma match_digits_plain (n : nat) (s rest : JsString) :
  match_digits n s = Some rest -> rest = [] -> plain s.
Proof.
  revert s. induction n as [|n IH]; intros s; cbn [match_digits].
  - intros [= ->] ->. constructor.
  - destruct s as [|c s]; [discriminate|].
    destruct (is_digit c) eqn:Hc; [|discriminate].
    intros Hm Hr. constructor; [|now apply IH].
    unfold is_digit in Hc. apply andb_prop in Hc as [_ Hc].
    apply N.leb_le in Hc. lia.
Qed.

Lemma regex_plain (s : JsString) : regex_test_10_digits s = true -> plain s.
Proof.
  unfold regex_test_10_digits.
  destruct (match_digits 10 s) as [[|c rest]|] eqn:Hm; try discriminate.
  intros _. now apply (match_digits_plain 10 s []).
Qed.

Lemma digits_aux_plain (fuel : nat) (n : Z) (acc : JsString) :
  plain acc -> plain (digits_aux fuel n acc).
Proof.
  revert n acc. induction fuel as [|fuel IH]; intros n acc Hacc; cbn [digits_aux].
  - exact Hacc.
  - assert (plain (Z.to_N (48 + n mod 10) :: acc)) as Hacc'.
    { constructor; [|exact Hacc].
      pose proof (Z.mod_pos_bound n 10 ltac:(lia)). lia. }
    destruct (n / 10 =? 0); [exact Hacc'|]. now apply IH.
Qed.

Lemma plain_decimal_digits (n : Z) : plain (decimal_digits n).
Proof. apply digits_aux_plain. constructor. Qed.

Lemma plain_strip_zeros_rev (r : JsString) : plain r -> plain (strip_zeros_rev r).
Proof.
  induction 1 as [|c r Hc Hr IH]; cbn [strip_zeros_rev]; [constructor|].
  destruct (c =? 48)%N; [exact IH|]. now constructor.
Qed.

Lemma plain_strip_trailing_zeros (s : JsString) :
  plain s -> plain (strip_trailing_zeros s).
Proof.
  intros Hs. unfold strip_trailing_zeros.
  apply Forall_rev, plain_strip_zeros_rev, Forall_rev, Hs.
Qed.

Lemma plain_repeat_zero (n : Z) : plain (repeat_zero n).
Proof.
  unfold repeat_zero. apply Forall_forall. intros c Hc.
  apply repeat_spec in Hc. subst c. lia.
Qed.

Lemma plain_split (n : nat) (s : JsString) :
  plain s -> plain (firstn n s) /\ plain (skipn n s).
Proof.
  intros Hs. apply Forall_app. now rewrite firstn_skipn.
Qed.

Lemma plain_positive_to_string (x : spec_float) (m : positive) (e : Z) :
  plain (positive_to_string x m e).
Proof.
  unfold positive_to_string.
  destruct (shortest_decimal x _ _) as [s scale].
  pose proof (plain_strip_trailing_zeros _ (plain_decimal_digits s)) as Hds.
  set (ds := strip_trailing_zeros (decimal_digits s)) in *.
  repeat match goal with
         | |- plain (if ?b then _ else _) => destruct b
         end.
  - apply plain_app; [exact Hds | apply plain_repeat_zero].
  - apply plain_app; [now apply plain_split|].
    apply plain_app; [apply plain_lit | now apply plain_split].
  - apply plain_app; [apply plain_lit|].
    apply plain_app; [apply plain_repeat_zero | exact Hds].
  - match goal with
    | |- plain (match ds with [] => ?ex | _ => _ end) =>
        assert (plain ex) as Hex
          by (apply plain_app;
              [destruct (0 <=? _); apply plain_lit | apply plain_decimal_digits]);
        set (ex' := ex) in *
    end.
    destruct ds as [|d [|d' ds']]; [exact Hex | |].
    + inversion Hds; subst. now constructor.
    + inversion Hds; subst. constructor; [assumption|].
      apply plain_app; [apply plain_lit|]. now apply plain_app.
Qed.

Lemma plain_number_to_string (x : spec_float) : plain (number_to_string x).
Proof.
  destruct x as [s|s| |s m e]; cbn [number_to_string].
  - apply plain_lit.
  - destruct s; apply plain_lit.
  - apply plain_lit.
  - destruct s.
    + apply plain_app; [apply plain_lit | apply plain_positive_to_string].
    + apply plain_positive_to_string.
Qed.

(** ** The checks before the outbound call *)

Lemma destructure_get (req_body : JsValue) (key : string) (v : JsValue) :
  Get req_body key = Normal v -> destructure req_body key = lift (Get req_body key).
Proof.
  destruct req_body; cbn; intros H; try discriminate; reflexivity.
Qed.

Lemma regex_nonempty (s : JsString) : regex_test_10_digits s = true -> s <> [].
Proof. intros H ->. discriminate. Qed.

Lemma truthy_string (s : JsString) : s <> [] -> truthy (JString s) = true.
Proof. destruct s; [congruence | reflexivity]. Qed.

Lemma auth_id_set (cfg : Config) (auth : JsString) :
  MONEYUNIFY_AUTH_ID cfg = Some auth -> auth <> [] -> auth_id_missing cfg = false.
Proof.
  unfold auth_id_missing. intros -> H. destruct auth; [congruence | reflexivity].
Qed.

(** A valid request with the secret set: one call, and the answer is the
    translation of what the provider does with it. *)
Lemma create_valid_run (cfg : Config) (provider : Provider) (req_body : JsValue)
  (phone auth : JsString) (parsedAmount : spec_float) :
  valid_initiate req_body phone parsedAmount ->
  MONEYUNIFY_AUTH_ID cfg = Some auth -> auth <> [] ->
  create_mobile_money_payment cfg provider req_body
  = (settle cfg create_translate (provider (payment_request auth phone parsedAmount)),
     [payment_request auth phone parsedAmount]).
Proof.
  intros (Hfp & Hre & (amount & input & Ham & Htr & Hin & Hpf) & Hnan & Hle) Hauth Hne.
  unfold create_mobile_money_payment, try_catch, create_body.
  rewrite (destructure_get _ _ _ Hfp), (destructure_get _ _ _ Ham).
  unfold append, fetch, console_log, bind, lift, ret.
  rewrite Hfp, Ham, (truthy_string phone (regex_nonempty _ Hre)), Htr.
  cbn [substring ToString negb orb].
  rewrite Hre, Hin, Hpf, Hnan, Hle, (auth_id_set _ _ Hauth Hne), Hauth.
  cbn [negb orb ToString app].
  rewrite (to_usv_plain phone (regex_plain _ Hre)).
  rewrite (to_usv_plain _ (plain_number_to_string parsedAmount)).
  cbn [to_usv].
  unfold payment_request, settle.
  destruct (provider _) as [response|e]; [|reflexivity].
  rewrite create_translate_trace.
  destruct (fst (create_translate response [])); reflexivity.
Qed.

(** A valid request without the secret: no call. *)
Lemma create_valid_unconfigured (cfg : Config) (provider : Provider)
  (req_body : JsValue) (phone : JsString) (parsedAmount : spec_float) :
  valid_initiate req_body phone parsedAmount ->
  auth_id_missing cfg = true ->
  create_mobile_money_payment cfg provider req_body = (not_configured, []).
Proof.
  intros (Hfp & Hre & (amount & input & Ham & Htr & Hin & Hpf) & Hnan & Hle) Hauth.
  unfold create_mobile_money_payment, try_catch, create_body.
  rewrite (destructure_get _ _ _ Hfp), (destructure_get _ _ _ Ham).
  unfold append, fetch, console_log, bind, lift, ret.
  rewrite Hfp, Ham, (truthy_string phone (regex_nonempty _ Hre)), Htr.
  cbn [substring ToString negb orb].
  rewrite Hre, Hin, Hpf, Hnan, Hle, Hauth.
  reflexivity.
Qed.

(** * The properties of the specification *)

(** ** C1: the verify handler passes the provider's answer through *)

(** C1, as stated, fails: for the call of a verify request with
    [transaction_id] present and the secret set, the provider can answer
    with the JSON body [null]; the handler then throws at [data.data] and
    the relay answers 500, not [{isError: false, message, data}]. *)
Lemma verify_null_body_is_internal_error :
  ~ (forall cfg provider req_body r response data,
        truthy (field req_body "transaction_id") = true ->
        auth_id_missing cfg = false ->
        snd (verify_mobile_money_payment cfg provider req_body) = [r] ->
        provider r = Normal response ->
        says_json response = true ->
        json response = Normal data ->
        exists message d,
          fst (verify_mobile_money_payment cfg provider req_body)
          = json_response 200
              [("isError", JBool false); ("message", message); ("data", d)]).
Proof.
  intros claim.
  destruct (claim production (always (null_answer 200)) (verification (JString (lit "T1")))
              (verification_request (lit "auth-0001") (lit "T1"))
              (null_answer 200) JNull)
    as (message & d & Hrun); try reflexivity.
  vm_compute in Hrun. discriminate.
Qed.

(** C1, amended: whenever the verify handler has issued its call [r] and
    the provider answers it with a JSON body [data] other than [null], the
    relay answers 200 with [{isError: false, message: data.message,
    data: data.data}], whatever the status code and whatever [data]
    holds. *)
Theorem verify_passes_through (cfg : Config) (provider : Provider)
  (req_body : JsValue) (r : OutboundRequest) (response : Response) (data : JsValue) :
  snd (verify_mobile_money_payment cfg provider req_body) = [r] ->
  provider r = Normal response ->
  says_json response = true ->
  json response = Normal data ->
  nullish data = false ->
  fst (verify_mobile_money_payment cfg provider req_body)
  = json_response 200
      [ ("isError", JBool false);
        ("message", field data "message");
        ("data", field data "data") ].
Proof.
  intros Htrace Hp Hct Hjson Hdata.
  destruct (verify_reaches _ _ _ _ Htrace) as (tid & _ & ->).
  unfold settle. rewrite Hp.
  now rewrite (verify_translate_json tid response data).
Qed.

(** The scenario of the specification: [data.status] comes back unchanged. *)
Lemma verify_passes_through_witness :
  snd (verify_mobile_money_payment production (always completed)
         (verification (JString (lit "T1"))))
  = [verification_request (lit "auth-0001") (lit "T1")]
  /\ fst (verify_mobile_money_payment production (always completed)
            (verification (JString (lit "T1"))))
     = json_response 200
         [ ("isError", JBool false);
           ("message", JUndefined);
           ("data", object [("status", JString (lit "completed"))]) ].
Proof.
  split; [reflexivity|].
  exact (verify_passes_through production (always completed)
           (verification (JString (lit "T1")))
           (verification_request (lit "auth-0001") (lit "T1"))
           _ _ eq_refl eq_refl eq_refl eq_refl eq_refl).
Defined.

(** ** C2: a malformed [from_payer] *)

(** For a string: a [from_payer] that is not empty and does not match the
    pattern is answered with 400 and an error envelope, and no call goes
    out, whatever [amount] is. *)
Lemma malformed_phone_string_rejected (cfg : Config) (provider : Provider)
  (req_body : JsValue) (phone : JsString) :
  Get req_body "from_payer" = Normal (JString phone) ->
  phone <> [] ->
  regex_test_10_digits phone = false ->
  exists message,
    create_mobile_money_payment cfg provider req_body
    = (json_response 400 [("isError", JBool true); ("message", JString message)], []).
Proof.
  intros Hfp Hne Hre.
  assert (exists amount, Get req_body "amount" = Normal amount) as [amount Ham].
  { destruct req_body; try discriminate Hfp; unfold Get; eauto.
    destruct (own_property props (lit "amount")); eauto. }
  unfold create_mobile_money_payment, try_catch, create_body.
  rewrite (destructure_get _ _ _ Hfp), (destructure_get _ _ _ Ham).
  unfold console_log, bind, lift, ret.
  rewrite Hfp, Ham, (truthy_string phone Hne).
  cbn [substring ToString negb orb].
  destruct (truthy amount); cbn [negb]; [|eexists; reflexivity].
  rewrite Hre. cbn [negb]. eexists; reflexivity.
Qed.

(** A truthy [from_payer] that is not a string never reaches the checks:
    line 56 calls [substring] on it and the [catch] block answers. *)
Lemma non_string_phone_throws (cfg : Config) (provider : Provider)
  (req_body from_payer : JsValue) :
  req_body <> JUndefined -> req_body <> JNull ->
  Get req_body "from_payer" = Normal from_payer ->
  truthy from_payer = true ->
  (forall s, from_payer <> JString s) ->
  create_mobile_money_payment cfg provider req_body
  = (internal_error cfg (TypeError (lit "from_payer.substring is not a function")), []).
Proof.
  intros Hu Hn Hfp Htr Hns.
  assert (exists amount, Get req_body "amount" = Normal amount) as [amount Ham].
  { destruct req_body; try congruence; unfold Get; eauto.
    destruct (own_property props (lit "amount")); eauto. }
  unfold create_mobile_money_payment, try_catch, create_body.
  rewrite (destructure_get _ _ _ Hfp), (destructure_get _ _ _ Ham).
  unfold console_log, bind, lift, ret.
  rewrite Hfp, Ham, Htr.
  destruct from_payer; try discriminate Htr; try reflexivity.
  now destruct (Hns s).
Qed.

(** C2, at [{from_payer: 12345, amount: "50"}]: the number 12345 is truthy
    and is not ten digits, but it has no [substring] method, so the
    [console.log] of line 55 throws before any check; the relay answers 500
    with the internal-error envelope instead of 400.  No call goes out. *)
Theorem numeric_phone_is_internal_error (cfg : Config) (provider : Provider) :
  truthy (integer 12345) = true
  /\ ToString (integer 12345) = Normal (lit "12345")
  /\ regex_test_10_digits (lit "12345") = false
  /\ create_mobile_money_payment cfg provider
       (initiation (integer 12345) (JString (lit "50")))
     = (internal_error cfg (TypeError (lit "from_payer.substring is not a function")),
        [])
  /\ status_code (internal_error cfg (TypeError (lit "from_payer.substring is not a function")))
     = 500.
Proof.
  repeat split; vm_compute; reflexivity.
Qed.

(** ** C3: the form payload of a payment request *)

(** C3, as stated, fails: the amount is forwarded as [Number.prototype.toString]
    prints it, so ["50.00"] goes out as ["50"] and ["0.5"] as ["0.5"]; there
    is no number of decimals that all forwarded amounts have. *)
Lemma forwarded_amount_has_no_fixed_precision :
  ~ (exists decimals : nat,
       forall cfg provider req_body phone parsedAmount r,
         valid_initiate req_body phone parsedAmount ->
         snd (create_mobile_money_payment cfg provider req_body) = [r] ->
         exists forwarded,
           In (lit "amount", forwarded) (form r)
           /\ fraction_digits forwarded = decimals).
Proof.
  intros [decimals claim].
  assert (forall amount x forwarded,
             parseFloat (lit amount) = x ->
             isNaN x = false -> le_zero x = false ->
             number_to_string x = forwarded ->
             fraction_digits forwarded = decimals) as Hfixed.
  { intros amount x forwarded Hx Hnan Hle Hfw.
    assert (valid_initiate
              (initiation (JString (lit "0971234567")) (JString (lit amount)))
              (lit "0971234567") x) as Hvalid.
    { repeat split; try reflexivity; try assumption.
      exists (JString (lit amount)), (lit amount).
      repeat split; try assumption.
      destruct amount; [subst x; discriminate Hnan | reflexivity]. }
    assert (snd (create_mobile_money_payment production (always initiated)
                   (initiation (JString (lit "0971234567")) (JString (lit amount))))
            = [payment_request (lit "auth-0001") (lit "0971234567") x]) as Htrace.
    { erewrite create_valid_run; [reflexivity | exact Hvalid | reflexivity | discriminate]. }
    destruct (claim _ _ _ _ _ _ Hvalid Htrace) as (fw & Hin & Hdigits).
    cbn [form payment_request In] in Hin.
    destruct Hin as [Hin | [Hin | [Hin | [Hin | []]]]];
      pose proof (f_equal fst Hin) as Hkey;
      pose proof (f_equal snd Hin) as Hvalue;
      cbn [fst snd] in Hkey, Hvalue;
      try (vm_compute in Hkey; discriminate Hkey).
    congruence. }
  pose proof (Hfixed "50.00" _ (lit "50") eq_refl eq_refl eq_refl eq_refl) as H50.
  pose proof (Hfixed "0.5" _ (lit "0.5") eq_refl eq_refl eq_refl eq_refl) as H05.
  vm_compute in H50, H05. congruence.
Qed.

(** C3, amended: a valid request with the secret set sends one call whose
    form payload is [from_payer], [amount], [auth_id] and an empty
    [webhook_url], in this order, where [amount] is the parsed amount as
    [Number.prototype.toString] prints it (the shortest decimal that reads
    back as the same Number: ["50.00"] is forwarded as ["50"]). *)
Theorem payment_form_payload (cfg : Config) (provider : Provider)
  (req_body : JsValue) (phone auth : JsString) (parsedAmount : spec_float) :
  valid_initiate req_body phone parsedAmount ->
  MONEYUNIFY_AUTH_ID cfg = Some auth -> auth <> [] ->
  (exists r,
     snd (create_mobile_money_payment cfg provider req_body) = [r]
     /\ form r = [ (lit "from_payer", phone);
                   (lit "amount", number_to_string parsedAmount);
                   (lit "auth_id", to_usv auth);
                   (lit "webhook_url", []) ])
  /\ number_to_string (parseFloat (lit "50.00")) = lit "50".
Proof.
  intros Hvalid Hauth Hne. split; [|reflexivity].
  exists (payment_request auth phone parsedAmount).
  rewrite (create_valid_run _ _ _ _ _ _ Hvalid Hauth Hne). split; reflexivity.
Qed.

Lemma payment_form_payload_witness :
  valid_initiate (initiation (JString (lit "0971234567")) (JString (lit "50.00")))
    (lit "0971234567") (parseFloat (lit "50.00"))
  /\ (exists r,
        snd (create_mobile_money_payment production (always initiated)
               (initiation (JString (lit "0971234567")) (JString (lit "50.00"))))
        = [r]
        /\ form r = [ (lit "from_payer", lit "0971234567");
                      (lit "amount", number_to_string (parseFloat (lit "50.00")));
                      (lit "auth_id", to_usv (lit "auth-0001"));
                      (lit "webhook_url", []) ]).
Proof.
  assert (valid_initiate (initiation (JString (lit "0971234567")) (JString (lit "50.00")))
            (lit "0971234567") (parseFloat (lit "50.00"))) as Hvalid.
  { repeat split; try reflexivity.
    exists (JString (lit "50.00")), (lit "50.00"). repeat split; reflexivity. }
  split; [exact Hvalid|].
  apply (payment_form_payload production (always initiated) _ _ (lit "auth-0001") _ Hvalid).
  - reflexivity.
  - discriminate.
Defined.

(** ** C4: the provider reports a failure *)

(** C4, as stated, fails: the provider can answer the call with status 502
    and the JSON body [null]; the handler throws at [data.isError] and the
    relay answers 500, not 400. *)
Lemma failed_null_body_is_internal_error :
  ~ (forall cfg provider req_body r response data,
        snd (create_mobile_money_payment cfg provider req_body) = [r] ->
        provider r = Normal response ->
        says_json response = true ->
        json response = Normal data ->
        has_error_flag data = true \/ ok response = false ->
        status_code (fst (create_mobile_money_payment cfg provider req_body)) = 400).
Proof.
  intros claim.
  specialize (claim production (always (null_answer 502))
                (initiation (JString (lit "0971234567")) (JString (lit "50.00")))
                (payment_request (lit "auth-0001") (lit "0971234567")
                   (parseFloat (lit "50.00")))
                (null_answer 502) JNull eq_refl eq_refl eq_refl eq_refl (or_intror eq_refl)).
  vm_compute in claim. discriminate.
Qed.

(** C4, amended: whenever the create handler has issued its call [r] and
    the provider answers it with a JSON body [data] other than [null] that
    has a truthy [isError], or with a status outside 200..299, the relay
    answers 400 with [{isError: true, message}], where [message] is
    [data.message] when that is truthy and ['Payment initiation failed']
    otherwise. *)
Theorem provider_failure_is_client_error (cfg : Config) (provider : Provider)
  (req_body : JsValue) (r : OutboundRequest) (response : Response) (data : JsValue) :
  snd (create_mobile_money_payment cfg provider req_body) = [r] ->
  provider r = Normal response ->
  says_json response = true ->
  json response = Normal data ->
  nullish data = false ->
  has_error_flag data = true \/ ok response = false ->
  fst (create_mobile_money_payment cfg provider req_body)
  = json_response 400
      [ ("isError", JBool true);
        ("message", if truthy (field data "message")
                    then field data "message"
                    else JString (lit "Payment initiation failed")) ].
Proof.
  intros Htrace Hp Hct Hjson Hdata Hflag.
  rewrite (create_reaches _ _ _ _ Htrace).
  unfold settle. rewrite Hp.
  now rewrite (create_translate_error response data).
Qed.

(** The scenario of the specification: [{isError: true, message: "X"}]
    comes back as [{isError: true, message: "X"}]. *)
Lemma provider_failure_is_client_error_witness :
  snd (create_mobile_money_payment production (always failed)
         (initiation (JString (lit "0971234567")) (JString (lit "50.00"))))
  = [payment_request (lit "auth-0001") (lit "0971234567") (parseFloat (lit "50.00"))]
  /\ fst (create_mobile_money_payment production (always failed)
            (initiation (JString (lit "0971234567")) (JString (lit "50.00"))))
     = json_response 400
         [ ("isError", JBool true); ("message", JString (lit "X")) ].
Proof.
  split; [reflexivity|].
  exact (provider_failure_is_client_error production (always failed)
           (initiation (JString (lit "0971234567")) (JString (lit "50.00")))
           (payment_request (lit "auth-0001") (lit "0971234567")
              (parseFloat (lit "50.00")))
           _ _ eq_refl eq_refl eq_refl eq_refl eq_refl (or_introl eq_refl)).
Defined.

(** ** C5: the secret is not set *)

(** C5: with [MONEYUNIFY_AUTH_ID] unset (or empty), a create request that
    passes the three checks and a verify request with a truthy
    [transaction_id] are both answered with 500 and
    [{isError: true, message: 'Payment service not configured. ...'}], and
    no call goes out. *)
Theorem unconfigured_is_config_error (cfg : Config) (provider : Provider)
  (req_body : JsValue) :
  auth_id_missing cfg = true ->
  ((exists phone parsedAmount, valid_initiate req_body phone parsedAmount) ->
   create_mobile_money_payment cfg provider req_body
   = (json_response 500
        [ ("isError", JBool true);
          ("message", JString (lit "Payment service not configured. Please contact support.")) ],
      []))
  /\ ((exists transaction_id,
         Get req_body "transaction_id" = Normal transaction_id
         /\ truthy transaction_id = true) ->
      verify_mobile_money_payment cfg provider req_body
      = (json_response 500
           [ ("isError", JBool true);
             ("message", JString (lit "Payment service not configured. Please contact support.")) ],
         [])).
Proof.
  intros Hauth. split.
  - intros (phone & parsedAmount & Hvalid).
    exact (create_valid_unconfigured _ _ _ _ _ Hvalid Hauth).
  - intros (tid & Htid & Htruthy).
    unfold verify_mobile_money_payment, try_catch, verify_body.
    rewrite (destructure_get _ _ _ Htid).
    unfold console_log, bind, lift, ret.
    rewrite Htid, Htruthy, Hauth. reflexivity.
Qed.

Lemma unconfigured_is_config_error_witness :
  auth_id_missing unconfigured = true
  /\ create_mobile_money_payment unconfigured (always initiated)
       (initiation (JString (lit "0971234567")) (JString (lit "50.00")))
     = (json_response 500
          [ ("isError", JBool true);
            ("message", JString (lit "Payment service not configured. Please contact support.")) ],
        [])
  /\ verify_mobile_money_payment unconfigured (always completed)
       (verification (JString (lit "T1")))
     = (json_response 500
          [ ("isError", JBool true);
            ("message", JString (lit "Payment service not configured. Please contact support.")) ],
        []).
Proof.
  split; [reflexivity|]. split.
  - apply (proj1 (unconfigured_is_config_error unconfigured (always initiated)
                    (initiation (JString (lit "0971234567")) (JString (lit "50.00")))
                    eq_refl)).
    exists (lit "0971234567"), (parseFloat (lit "50.00")).
    repeat split; try reflexivity.
    exists (JString (lit "50.00")), (lit "50.00"). repeat split; reflexivity.
  - apply (proj2 (unconfigured_is_config_error unconfigured (always completed)
                    (verification (JString (lit "T1"))) eq_refl)).
    exists (JString (lit "T1")). split; reflexivity.
Defined.

(** ** C6: the provider does not answer with JSON *)

(** C6: whenever either handler has issued its call [r] and the provider
    answers it with a content type that does not contain
    ['application/json'], the relay answers 500 with [{isError: true,
    message: 'Internal server error', error}].  The text of the body is in
    no field: [error] is ['An error occurred'], or in development the
    message of the exception, which is the fixed ['Invalid response from
    payment provider'] when the body could be read. *)
Theorem non_json_is_internal_error (cfg : Config) (provider : Provider)
  (req_body : JsValue) (r : OutboundRequest) (response : Response) :
  provider r = Normal response ->
  says_json response = false ->
  let thrown := match text response with
                | Normal _ => Error (lit "Invalid response from payment provider")
                | Throw e => e
                end in
  (snd (create_mobile_money_payment cfg provider req_body) = [r] ->
   fst (create_mobile_money_payment cfg provider req_body)
   = json_response 500
       [ ("isError", JBool true);
         ("message", JString (lit "Internal server error"));
         ("error", JString (if is_development cfg then error_message thrown
                            else lit "An error occurred")) ])
  /\ (snd (verify_mobile_money_payment cfg provider req_body) = [r] ->
      fst (verify_mobile_money_payment cfg provider req_body)
      = json_response 500
          [ ("isError", JBool true);
            ("message", JString (lit "Internal server error"));
            ("error", JString (if is_development cfg then error_message thrown
                               else lit "An error occurred")) ]).
Proof.
  intros Hp Hct thrown. split; intros Htrace.
  - rewrite (create_reaches _ _ _ _ Htrace).
    unfold settle. rewrite Hp, (create_translate_not_json _ Hct). reflexivity.
  - destruct (verify_reaches _ _ _ _ Htrace) as (tid & _ & ->).
    unfold settle. rewrite Hp, (verify_translate_not_json _ _ Hct). reflexivity.
Qed.

Lemma non_json_is_internal_error_witness :
  fst (create_mobile_money_payment production (always gateway_page)
         (initiation (JString (lit "0971234567")) (JString (lit "50.00"))))
  = json_response 500
      [ ("isError", JBool true);
        ("message", JString (lit "Internal server error"));
        ("error", JString (lit "An error occurred")) ]
  /\ fst (verify_mobile_money_payment development (always gateway_page)
            (verification (JString (lit "T1"))))
     = json_response 500
         [ ("isError", JBool true);
           ("message", JString (lit "Internal server error"));
           ("error", JString (lit "Invalid response from payment provider")) ].
Proof.
  split.
  - exact (proj1 (non_json_is_internal_error production (always gateway_page)
                    (initiation (JString (lit "0971234567")) (JString (lit "50.00")))
                    (payment_request (lit "auth-0001") (lit "0971234567")
                       (parseFloat (lit "50.00")))
                    _ eq_refl eq_refl) eq_refl).
  - exact (proj2 (non_json_is_internal_error development (always gateway_page)
                    (verification (JString (lit "T1")))
                    (verification_request (lit "auth-0001") (lit "T1"))
                    _ eq_refl eq_refl) eq_refl).
Defined.

(** ** C7: the provider accepts the payment *)

(** C7, as stated, fails: the provider can accept a valid request with
    status 200 and [{isError: false, message: "ok"}], a body without
    [data]; line 135 then reads [data.data.transaction_id] and throws, and
    the relay answers 500, not 200. *)
Lemma accepted_without_data_is_internal_error :
  ~ (forall cfg provider req_body phone parsedAmount auth response data,
        valid_initiate req_body phone parsedAmount ->
        MONEYUNIFY_AUTH_ID cfg = Some auth -> auth <> [] ->
        provider (payment_request auth phone parsedAmount) = Normal response ->
        says_json response = true ->
        json response = Normal data ->
        has_error_flag data = false ->
        ok response = true ->
        status_code (fst (create_mobile_money_payment cfg provider req_body)) = 200).
Proof.
  intros claim.
  assert (valid_initiate (initiation (JString (lit "0971234567")) (JString (lit "50.00")))
            (lit "0971234567") (parseFloat (lit "50.00"))) as Hvalid.
  { repeat split; try reflexivity.
    exists (JString (lit "50.00")), (lit "50.00"). repeat split; reflexivity. }
  specialize (claim production (always accepted_without_data)
                (initiation (JString (lit "0971234567")) (JString (lit "50.00")))
                (lit "0971234567") (parseFloat (lit "50.00")) (lit "auth-0001")
                accepted_without_data
                (object [("isError", JBool false); ("message", JString (lit "ok"))])
                Hvalid eq_refl ltac:(discriminate)
                eq_refl eq_refl eq_refl eq_refl eq_refl).
  vm_compute in claim. discriminate.
Qed.

(** C7, amended: for a valid request with the secret set, when the provider
    answers the call with a status in 200..299 and a JSON body [data] other
    than [null], without a truthy [isError] and with a [data.data] that is
    neither absent nor [null], the relay answers 200 with
    [{isError: false, message: data.message, data: data.data}]. *)
Theorem accepted_payment_passes_through (cfg : Config) (provider : Provider)
  (req_body : JsValue) (phone auth : JsString) (parsedAmount : spec_float)
  (response : Response) (data : JsValue) :
  valid_initiate req_body phone parsedAmount ->
  MONEYUNIFY_AUTH_ID cfg = Some auth -> auth <> [] ->
  provider (payment_request auth phone parsedAmount) = Normal response ->
  says_json response = true ->
  json response = Normal data ->
  nullish data = false ->
  has_error_flag data = false ->
  ok response = true ->
  nullish (field data "data") = false ->
  create_mobile_money_payment cfg provider req_body
  = (json_response 200
       [ ("isError", JBool false);
         ("message", field data "message");
         ("data", field data "data") ],
     [payment_request auth phone parsedAmount]).
Proof.
  intros Hvalid Hauth Hne Hp Hct Hjson Hdata Hflag Hok Hdd.
  rewrite (create_valid_run _ _ _ _ _ _ Hvalid Hauth Hne).
  unfold settle. rewrite Hp.
  now rewrite (create_translate_success response data).
Qed.

(** The scenario of the specification. *)
Lemma accepted_payment_passes_through_witness :
  create_mobile_money_payment production (always initiated)
    (initiation (JString (lit "0971234567")) (JString (lit "50.00")))
  = (json_response 200
       [ ("isError", JBool false);
         ("message", JString (lit "ok"));
         ("data", object [("transaction_id", JString (lit "T1"))]) ],
     [payment_request (lit "auth-0001") (lit "0971234567") (parseFloat (lit "50.00"))]).
Proof.
  apply (accepted_payment_passes_through production (always initiated)
           (initiation (JString (lit "0971234567")) (JString (lit "50.00")))
           (lit "0971234567") (lit "auth-0001") (parseFloat (lit "50.00"))
           initiated
           (object [("isError", JBool false);
                    ("message", JString (lit "ok"));
                    ("data", object [("transaction_id", JString (lit "T1"))])]));
    try reflexivity; try discriminate.
  repeat split; try reflexivity.
  exists (JString (lit "50.00")), (lit "50.00"). repeat split; reflexivity.
Defined.

(** ** C8: an amount that is not a positive number *)

(** For a string [from_payer] and an [amount] that [ToString] converts:
    when [parseFloat] gives NaN or a value that is not above zero, the
    relay answers 400 with an error envelope and no call goes out. *)
Lemma invalid_amount_rejected (cfg : Config) (provider : Provider)
  (req_body : JsValue) (phone : JsString) (amount : JsValue) (input : JsString) :
  Get req_body "from_payer" = Normal (JString phone) ->
  phone <> [] ->
  Get req_body "amount" = Normal amount ->
  truthy amount = true ->
  ToString amount = Normal input ->
  isNaN (parseFloat input) || le_zero (parseFloat input) = true ->
  exists message,
    create_mobile_money_payment cfg provider req_body
    = (json_response 400 [("isError", JBool true); ("message", JString message)], []).
Proof.
  intros Hfp Hne Ham Htr Hin Hbad.
  unfold create_mobile_money_payment, try_catch, create_body.
  rewrite (destructure_get _ _ _ Hfp), (destructure_get _ _ _ Ham).
  unfold console_log, bind, lift, ret.
  rewrite Hfp, Ham, (truthy_string phone Hne), Htr.
  cbn [substring ToString negb orb].
  destruct (regex_test_10_digits phone); cbn [negb]; [|eexists; reflexivity].
  rewrite Hin, Hbad. eexists; reflexivity.
Qed.

(** C8, at [{from_payer: 971234567, amount: "abc"}] and at
    [{from_payer: "0971234567", amount: {toString: 1}}]: both fields are
    present and the amount is no number, yet the relay answers 500.  In the
    first the numeric [from_payer] makes the [console.log] of line 55 throw;
    in the second [parseFloat] throws while converting the object. *)
Theorem unparsable_amount_is_internal_error (cfg : Config) (provider : Provider) :
  parseFloat (lit "abc") = NaN
  /\ create_mobile_money_payment cfg provider
       (initiation (integer 971234567) (JString (lit "abc")))
     = (internal_error cfg (TypeError (lit "from_payer.substring is not a function")),
        [])
  /\ ToString (object [("toString", integer 1)])
     = Throw (TypeError (lit "Cannot convert object to primitive value"))
  /\ create_mobile_money_payment cfg provider
       (initiation (JString (lit "0971234567")) (object [("toString", integer 1)]))
     = (internal_error cfg (TypeError (lit "Cannot convert object to primitive value")),
        [])
  /\ forall e, status_code (internal_error cfg e) = 500.
Proof.
  repeat split; vm_compute; reflexivity.
Qed.

(** ** C9: what the [catch] blocks disclose *)

(** C9: when the body of either handler throws [e], the relay answers 500
    with [{isError: true, message: 'Internal server error', error}], where
    [error] is the message of [e] only when [NODE_ENV] is ['development']
    and the fixed ['An error occurred'] otherwise.  Outside development,
    any two runs that end in the [catch] block of a handler get the same
    answer, whatever was thrown. *)
Theorem error_detail_only_in_development (cfg : Config) (provider : Provider)
  (req_body : JsValue) (e : JsError) (t : Trace) :
  (create_body cfg provider req_body [] = (Throw e, t) ->
   fst (create_mobile_money_payment cfg provider req_body)
   = json_response 500
       [ ("isError", JBool true);
         ("message", JString (lit "Internal server error"));
         ("error", JString (if is_development cfg then error_message e
                            else lit "An error occurred")) ])
  /\ (verify_body cfg provider req_body [] = (Throw e, t) ->
      fst (verify_mobile_money_payment cfg provider req_body)
      = json_response 500
          [ ("isError", JBool true);
            ("message", JString (lit "Internal server error"));
            ("error", JString (if is_development cfg then error_message e
                               else lit "An error occurred")) ])
  /\ (is_development cfg = false ->
      forall provider' req_body' e' t',
        (create_body cfg provider req_body [] = (Throw e, t) ->
         create_body cfg provider' req_body' [] = (Throw e', t') ->
         fst (create_mobile_money_payment cfg provider req_body)
         = fst (create_mobile_money_payment cfg provider' req_body'))
        /\ (verify_body cfg provider req_body [] = (Throw e, t) ->
            verify_body cfg provider' req_body' [] = (Throw e', t') ->
            fst (verify_mobile_money_payment cfg provider req_body)
            = fst (verify_mobile_money_payment cfg provider' req_body'))).
Proof.
  unfold create_mobile_money_payment, verify_mobile_money_payment, try_catch.
  split; [|split].
  - intros ->. reflexivity.
  - intros ->. reflexivity.
  - intros Hdev provider' req_body' e' t'.
    split; intros -> ->; cbn [fst]; unfold internal_error; rewrite Hdev; reflexivity.
Qed.

(** In production, a failed connection and a body that is no JSON get the
    same answer. *)
Lemma error_detail_only_in_development_witness :
  is_development production = false
  /\ create_body production (unreachable "fetch failed")
       (initiation (JString (lit "0971234567")) (JString (lit "50.00"))) []
     = (Throw (TypeError (lit "fetch failed")),
        [payment_request (lit "auth-0001") (lit "0971234567") (parseFloat (lit "50.00"))])
  /\ create_body production (always gateway_page)
       (initiation (JString (lit "0971234567")) (JString (lit "50.00"))) []
     = (Throw (Error (lit "Invalid response from payment provider")),
        [payment_request (lit "auth-0001") (lit "0971234567") (parseFloat (lit "50.00"))])
  /\ fst (create_mobile_money_payment production (unreachable "fetch failed")
            (initiation (JString (lit "0971234567")) (JString (lit "50.00"))))
     = fst (create_mobile_money_payment production (always gateway_page)
              (initiation (JString (lit "0971234567")) (JString (lit "50.00")))).
Proof.
  split; [reflexivity|]. split; [reflexivity|]. split; [reflexivity|].
  exact (proj1 (proj2 (proj2 (error_detail_only_in_development production
                                (unreachable "fetch failed")
                                (initiation (JString (lit "0971234567"))
                                   (JString (lit "50.00")))
                                _ _))
                  eq_refl (always gateway_page)
                  (initiation (JString (lit "0971234567")) (JString (lit "50.00")))
                  _ _)
           eq_refl eq_refl).
Defined.

(** ** C10: the provider accepts the payment and sends no [data] *)

(** C10: for a valid request with the secret set, when the provider answers
    the call with a status in 200..299 and a JSON body without a truthy
    [isError] whose [data] is absent or [null], line 135 throws a
    [TypeError] on [data.data.transaction_id] (line 127 already, on
    [data.isError], when the body itself is [null]) and the relay answers
    500 with [{isError: true, message: 'Internal server error', error}]. *)
Theorem accepted_without_data_answer (cfg : Config) (provider : Provider)
  (req_body : JsValue) (phone auth : JsString) (parsedAmount : spec_float)
  (response : Response) (data : JsValue) :
  valid_initiate req_body phone parsedAmount ->
  MONEYUNIFY_AUTH_ID cfg = Some auth -> auth <> [] ->
  provider (payment_request auth phone parsedAmount) = Normal response ->
  says_json response = true ->
  json response = Normal data ->
  has_error_flag data = false ->
  ok response = true ->
  nullish (field data "data") = true ->
  exists reason,
    create_mobile_money_payment cfg provider req_body
    = (json_response 500
         [ ("isError", JBool true);
           ("message", JString (lit "Internal server error"));
           ("error", JString (if is_development cfg then reason
                              else lit "An error occurred")) ],
       [payment_request auth phone parsedAmount]).
Proof.
  intros Hvalid Hauth Hne Hp Hct Hjson Hflag Hok Hdd.
  rewrite (create_valid_run _ _ _ _ _ _ Hvalid Hauth Hne).
  unfold settle. rewrite Hp.
  destruct (create_translate_no_data response data Hct Hjson Hflag Hok (or_intror Hdd))
    as [reason ->].
  exists reason. reflexivity.
Qed.

Lemma accepted_without_data_answer_witness :
  exists reason,
    create_mobile_money_payment development (always accepted_without_data)
      (initiation (JString (lit "0971234567")) (JString (lit "50.00")))
    = (json_response 500
         [ ("isError", JBool true);
           ("message", JString (lit "Internal server error"));
           ("error", JString (if is_development development then reason
                              else lit "An error occurred")) ],
       [payment_request (lit "auth-0001") (lit "0971234567") (parseFloat (lit "50.00"))]).
Proof.
  apply (accepted_without_data_answer development (always accepted_without_data)
           (initiation (JString (lit "0971234567")) (JString (lit "50.00")))
           (lit "0971234567") (lit "auth-0001") (parseFloat (lit "50.00"))
           accepted_without_data
           (object [("isError", JBool false); ("message", JString (lit "ok"))]));
    try reflexivity; try discriminate.
  repeat split; try reflexivity.
  exists (JString (lit "50.00")), (lit "50.00"). repeat split; reflexivity.
Defined.

(** * Further properties of the handlers *)

(** ** The checks of the create handler, one by one *)

Ltac run_create Hfp Ham :=
  unfold create_mobile_money_payment, try_catch, create_body;
  rewrite (destructure_get _ _ _ Hfp), (destructure_get _ _ _ Ham);
  unfold console_log, bind, lift, ret;
  rewrite Hfp, Ham.

Lemma get_total (v : JsValue) (key : string) :
  nullish v = false -> exists p, Get v key = Normal p.
Proof. intros H. exists (field v key). now apply get_field. Qed.

Lemma create_no_body (cfg : Config) (provider : Provider) (req_body : JsValue) :
  nullish req_body = true ->
  create_mobile_money_payment cfg provider req_body
  = (internal_error cfg
       (TypeError (lit "Cannot destructure property 'from_payer' of 'req.body' as it is undefined.")),
     []).
Proof. destruct req_body; try discriminate; reflexivity. Qed.

Lemma create_missing (cfg : Config) (provider : Provider)
  (req_body from_payer amount : JsValue) :
  Get req_body "from_payer" = Normal from_payer ->
  Get req_body "amount" = Normal amount ->
  truthy from_payer = false
  \/ (exists s, from_payer = JString s) /\ truthy amount = false ->
  create_mobile_money_payment cfg provider req_body = (missing_fields, []).
Proof.
  intros Hfp Ham [Hf | [[s ->] Ha]]; run_create Hfp Ham.
  - rewrite Hf. reflexivity.
  - destruct (truthy (JString s)); cbn [substring]; rewrite Ha; reflexivity.
Qed.

Lemma create_bad_phone (cfg : Config) (provider : Provider)
  (req_body amount : JsValue) (phone : JsString) :
  Get req_body "from_payer" = Normal (JString phone) ->
  Get req_body "amount" = Normal amount ->
  phone <> [] -> truthy amount = true ->
  regex_test_10_digits phone = false ->
  create_mobile_money_payment cfg provider req_body = (invalid_phone, []).
Proof.
  intros Hfp Ham Hne Htr Hre. run_create Hfp Ham.
  rewrite (truthy_string phone Hne), Htr. cbn [substring ToString negb orb].
  rewrite Hre. reflexivity.
Qed.

Lemma create_bad_amount (cfg : Config) (provider : Provider)
  (req_body amount : JsValue) (phone input : JsString) :
  Get req_body "from_payer" = Normal (JString phone) ->
  Get req_body "amount" = Normal amount ->
  regex_test_10_digits phone = true -> truthy amount = true ->
  ToString amount = Normal input ->
  isNaN (parseFloat input) || le_zero (parseFloat input) = true ->
  create_mobile_money_payment cfg provider req_body = (invalid_amount, []).
Proof.
  intros Hfp Ham Hre Htr Hin Hbad. run_create Hfp Ham.
  rewrite (truthy_string phone (regex_nonempty _ Hre)), Htr.
  cbn [substring ToString negb orb].
  rewrite Hre, Hin, Hbad. reflexivity.
Qed.

Lemma create_amount_throws (cfg : Config) (provider : Provider)
  (req_body amount : JsValue) (phone : JsString) (e : JsError) :
  Get req_body "from_payer" = Normal (JString phone) ->
  Get req_body "amount" = Normal amount ->
  regex_test_10_digits phone = true -> truthy amount = true ->
  ToString amount = Throw e ->
  create_mobile_money_payment cfg provider req_body = (internal_error cfg e, []).
Proof.
  intros Hfp Ham Hre Htr Hin. run_create Hfp Ham.
  rewrite (truthy_string phone (regex_nonempty _ Hre)), Htr.
  cbn [substring ToString negb orb].
  rewrite Hre, Hin. reflexivity.
Qed.

Lemma auth_id_present (cfg : Config) :
  auth_id_missing cfg = false ->
  exists auth, MONEYUNIFY_AUTH_ID cfg = Some auth /\ auth <> [].
Proof.
  unfold auth_id_missing. destruct (MONEYUNIFY_AUTH_ID cfg) as [[|c auth]|];
    try discriminate.
  intros _. exists (c :: auth). split; [reflexivity | discriminate].
Qed.

(** Every run of the create handler is one of five. *)
Lemma create_cases (cfg : Config) (provider : Provider) (req_body : JsValue) :
  (exists e, create_mobile_money_payment cfg provider req_body
             = (internal_error cfg e, []))
  \/ create_mobile_money_payment cfg provider req_body = (missing_fields, [])
  \/ create_mobile_money_payment cfg provider req_body = (invalid_phone, [])
  \/ create_mobile_money_payment cfg provider req_body = (invalid_amount, [])
  \/ exists phone parsedAmount,
       valid_initiate req_body phone parsedAmount
       /\ (auth_id_missing cfg = true
           /\ create_mobile_money_payment cfg provider req_body = (not_configured, [])
           \/ exists auth,
                MONEYUNIFY_AUTH_ID cfg = Some auth /\ auth <> []
                /\ create_mobile_money_payment cfg provider req_body
                   = (settle cfg create_translate
                        (provider (payment_request auth phone parsedAmount)),
                      [payment_request auth phone parsedAmount])).
Proof.
  destruct (nullish req_body) eqn:Hbody.
  { left. eexists. now apply create_no_body. }
  destruct (get_total req_body "from_payer" Hbody) as [from_payer Hfp].
  destruct (get_total req_body "amount" Hbody) as [amount Ham].
  destruct (truthy from_payer) eqn:Hf.
  2:{ right; left. apply (create_missing _ _ _ _ _ Hfp Ham). now left. }
  assert ((exists s, from_payer = JString s) \/ forall s, from_payer <> JString s)
    as [[phone ->] | Hns].
  { destruct from_payer; try (right; discriminate). left. now eexists. }
  2:{ left. eexists.
      apply (non_string_phone_throws cfg provider req_body from_payer);
        try assumption; intros ->; discriminate. }
  assert (phone <> []) as Hne by (intros ->; discriminate).
  destruct (truthy amount) eqn:Ha.
  2:{ right; left. apply (create_missing _ _ _ _ _ Hfp Ham). right. eauto. }
  destruct (regex_test_10_digits phone) eqn:Hre.
  2:{ right; right; left. now apply (create_bad_phone _ _ _ amount phone). }
  destruct (ToString amount) as [input|e] eqn:Hin.
  2:{ left. exists e. now apply (create_amount_throws _ _ _ amount phone). }
  destruct (isNaN (parseFloat input) || le_zero (parseFloat input)) eqn:Hbad.
  { right; right; right; left. now apply (create_bad_amount _ _ _ amount phone input). }
  apply orb_false_elim in Hbad as [Hnan Hle].
  right; right; right; right. exists phone, (parseFloat input).
  assert (valid_initiate req_body phone (parseFloat input)) as Hvalid.
  { repeat split; try assumption. exists amount, input. repeat split; assumption. }
  split; [exact Hvalid|].
  destruct (auth_id_missing cfg) eqn:Hauth.
  - left. split; [reflexivity|]. now apply create_valid_unconfigured with phone (parseFloat input).
  - right. destruct (auth_id_present cfg Hauth) as (auth & Hsome & Hnonempty).
    exists auth. repeat split; try assumption.
    now apply create_valid_run.
Qed.

(** ** The translation of the response, case by case *)

Lemma read_json_body_throws (response : Response) (e : JsError) :
  says_json response = true ->
  json response = Throw e ->
  fst (create_translate response []) = Throw e
  /\ forall tid, fst (verify_translate tid response []) = Throw e.
Proof.
  intros Hct Hjson. unfold_translate. rewrite Hct, Hjson. split; reflexivity.
Qed.

Lemma create_translate_nullish (response : Response) (data : JsValue) :
  says_json response = true ->
  json response = Normal data ->
  nullish data = true ->
  exists e, fst (create_translate response []) = Throw e.
Proof.
  intros Hct Hjson Hdata. unfold_translate. rewrite Hct, Hjson.
  destruct (get_nullish data "isError" Hdata) as [e ->]. now exists e.
Qed.

(** What the create handler makes of a settled [fetch]: the [catch] block,
    the provider's failure as a 400, or the provider's data as a 200; the
    last only for a JSON body with a status in 200..299, no error flag and
    a [data]. *)
Lemma create_settle_cases (cfg : Config) (outcome : Completion Response) :
  (exists e, settle cfg create_translate outcome = internal_error cfg e)
  \/ (exists response data,
        outcome = Normal response /\ says_json response = true
        /\ json response = Normal data /\ nullish data = false
        /\ (has_error_flag data = true \/ ok response = false)
        /\ settle cfg create_translate outcome
           = json_response 400
               [ ("isError", JBool true);
                 ("message", if truthy (field data "message")
                             then field data "message"
                             else JString (lit "Payment initiation failed")) ])
  \/ (exists response data,
        outcome = Normal response /\ says_json response = true
        /\ json response = Normal data /\ nullish data = false
        /\ has_error_flag data = false /\ ok response = true
        /\ nullish (field data "data") = false
        /\ settle cfg create_translate outcome
           = json_response 200
               [ ("isError", JBool false);
                 ("message", field data "message");
                 ("data", field data "data") ]).
Proof.
  destruct outcome as [response|e]; [|left; now exists e].
  unfold settle.
  destruct (says_json response) eqn:Hct.
  2:{ left. rewrite (create_translate_not_json _ Hct). now eexists. }
  destruct (json response) as [data|e] eqn:Hjson.
  2:{ left. rewrite (proj1 (read_json_body_throws _ _ Hct Hjson)). now eexists. }
  destruct (nullish data) eqn:Hdata.
  { left. destruct (create_translate_nullish _ _ Hct Hjson Hdata) as [e ->].
    now eexists. }
  destruct (has_error_flag data) eqn:Hflag.
  { right; left. exists response, data.
    rewrite (create_translate_error response data) by auto. auto 10. }
  destruct (ok response) eqn:Hok.
  2:{ right; left. exists response, data.
      rewrite (create_translate_error response data) by auto. auto 10. }
  destruct (nullish (field data "data")) eqn:Hdd.
  { left.
    destruct (create_translate_no_data _ _ Hct Hjson Hflag Hok (or_intror Hdd))
      as [m ->].
    now eexists. }
  right; right. exists response, data.
  rewrite (create_translate_success response data) by assumption.
  auto 10.
Qed.

Lemma verify_settle_cases (cfg : Config) (tid : JsValue)
  (outcome : Completion Response) :
  (exists e, settle cfg (verify_translate tid) outcome = internal_error cfg e)
  \/ (exists response data,
        outcome = Normal response /\ says_json response = true
        /\ json response = Normal data /\ nullish data = false
        /\ settle cfg (verify_translate tid) outcome
           = json_response 200
               [ ("isError", JBool false);
                 ("message", field data "message");
                 ("data", field data "data") ]).
Proof.
  destruct outcome as [response|e]; [|left; now exists e].
  unfold settle.
  destruct (says_json response) eqn:Hct.
  2:{ left. rewrite (verify_translate_not_json _ _ Hct). now eexists. }
  destruct (json response) as [data|e] eqn:Hjson.
  2:{ left. rewrite (proj2 (read_json_body_throws _ _ Hct Hjson)). now eexists. }
  destruct (nullish data) eqn:Hdata.
  { left. destruct (verify_translate_nullish tid _ _ Hct Hjson Hdata) as [e ->].
    now eexists. }
  right. exists response, data.
  rewrite (verify_translate_json tid response data) by assumption.
  auto 10.
Qed.

(** ** The checks of the verify handler *)

Ltac run_verify Htid :=
  unfold verify_mobile_money_payment, try_catch, verify_body;
  rewrite (destructure_get _ _ _ Htid);
  unfold append, fetch, console_log, bind, lift, ret;
  rewrite Htid.

Lemma verify_no_body (cfg : Config) (provider : Provider) (req_body : JsValue) :
  nullish req_body = true ->
  verify_mobile_money_payment cfg provider req_body
  = (internal_error cfg
       (TypeError (lit "Cannot destructure property 'transaction_id' of 'req.body' as it is undefined.")),
     []).
Proof. destruct req_body; try discriminate; reflexivity. Qed.

Lemma verify_missing (cfg : Config) (provider : Provider)
  (req_body transaction_id : JsValue) :
  Get req_body "transaction_id" = Normal transaction_id ->
  truthy transaction_id = false ->
  verify_mobile_money_payment cfg provider req_body = (missing_transaction_id, []).
Proof. intros Htid Hf. run_verify Htid. rewrite Hf. reflexivity. Qed.

Lemma verify_unconfigured (cfg : Config) (provider : Provider)
  (req_body transaction_id : JsValue) :
  Get req_body "transaction_id" = Normal transaction_id ->
  truthy transaction_id = true ->
  auth_id_missing cfg = true ->
  verify_mobile_money_payment cfg provider req_body = (not_configured, []).
Proof. intros Htid Ht Hauth. run_verify Htid. rewrite Ht, Hauth. reflexivity. Qed.

Lemma verify_id_throws (cfg : Config) (provider : Provider)
  (req_body transaction_id : JsValue) (e : JsError) :
  Get req_body "transaction_id" = Normal transaction_id ->
  truthy transaction_id = true ->
  auth_id_missing cfg = false ->
  ToString transaction_id = Throw e ->
  verify_mobile_money_payment cfg provider req_body = (internal_error cfg e, []).
Proof.
  intros Htid Ht Hauth Hs. run_verify Htid.
  destruct (auth_id_present cfg Hauth) as (auth & Hsome & _).
  rewrite Ht, Hauth, Hsome. cbn [negb ToString app].
  rewrite Hs. reflexivity.
Qed.

Lemma verify_run (cfg : Config) (provider : Provider)
  (req_body transaction_id : JsValue) (auth id : JsString) :
  Get req_body "transaction_id" = Normal transaction_id ->
  truthy transaction_id = true ->
  MONEYUNIFY_AUTH_ID cfg = Some auth -> auth <> [] ->
  ToString transaction_id = Normal id ->
  verify_mobile_money_payment cfg provider req_body
  = (settle cfg (verify_translate transaction_id)
       (provider (verification_request auth id)),
     [verification_request auth id]).
Proof.
  intros Htid Ht Hauth Hne Hs. run_verify Htid.
  rewrite Ht, (auth_id_set _ _ Hauth Hne), Hauth. cbn [negb ToString app].
  rewrite Hs. cbn [app].
  unfold verification_request, settle.
  destruct (provider _) as [response|e]; [|reflexivity].
  rewrite verify_translate_trace.
  destruct (fst (verify_translate transaction_id response [])); reflexivity.
Qed.

(** Every run of the verify handler is one of four. *)
Lemma verify_cases (cfg : Config) (provider : Provider) (req_body : JsValue) :
  (exists e, verify_mobile_money_payment cfg provider req_body
             = (internal_error cfg e, []))
  \/ (truthy (field req_body "transaction_id") = false
      /\ verify_mobile_money_payment cfg provider req_body
         = (missing_transaction_id, []))
  \/ (auth_id_missing cfg = true
      /\ verify_mobile_money_payment cfg provider req_body = (not_configured, []))
  \/ exists transaction_id id auth,
       Get req_body "transaction_id" = Normal transaction_id
       /\ truthy transaction_id = true
       /\ ToString transaction_id = Normal id
       /\ MONEYUNIFY_AUTH_ID cfg = Some auth /\ auth <> []
       /\ verify_mobile_money_payment cfg provider req_body
          = (settle cfg (verify_translate transaction_id)
               (provider (verification_request auth id)),
             [verification_request auth id]).
Proof.
  destruct (nullish req_body) eqn:Hbody.
  { left. eexists. now apply verify_no_body. }
  pose proof (get_field req_body "transaction_id" Hbody) as Htid.
  destruct (truthy (field req_body "transaction_id")) eqn:Ht.
  2:{ right; left. split; [reflexivity|]. now apply (verify_missing _ _ _ _ Htid). }
  destruct (auth_id_missing cfg) eqn:Hauth.
  { right; right; left. split; [reflexivity|].
    now apply (verify_unconfigured _ _ _ _ Htid). }
  destruct (ToString (field req_body "transaction_id")) as [id|e] eqn:Hs.
  2:{ left. exists e. now apply (verify_id_throws _ _ _ _ _ Htid). }
  destruct (auth_id_present cfg Hauth) as (auth & Hsome & Hne).
  right; right; right. exists (field req_body "transaction_id"), id, auth.
  repeat split; try assumption.
  now apply verify_run.
Qed.

(** ** Calls to the provider *)

(** X1: neither handler calls the provider more than once for a
    request. *)
Theorem at_most_one_outbound_call (cfg : Config) (provider : Provider)
  (req_body : JsValue) :
  (List.length (snd (create_mobile_money_payment cfg provider req_body)) <= 1)%nat
  /\ (List.length (snd (verify_mobile_money_payment cfg provider req_body)) <= 1)%nat.
Proof.
  split.
  - destruct (create_outbound cfg provider req_body) as [-> | [r ->]]; cbn; lia.
  - destruct (verify_outbound cfg provider req_body)
      as [-> | (r & tid & _ & _ & _ & ->)]; cbn; lia.
Qed.

(** X2: when the create handler calls the provider, the request has passed
    the three checks and the secret is set; the call is a POST to
    [/payments/request] of the provider with the two fixed headers, and its
    form holds the caller's ten digits, the parsed amount, the secret and
    an empty [webhook_url]. *)
Theorem payment_call_only_for_valid_request (cfg : Config) (provider : Provider)
  (req_body : JsValue) (r : OutboundRequest) :
  snd (create_mobile_money_payment cfg provider req_body) = [r] ->
  exists phone parsedAmount auth,
    valid_initiate req_body phone parsedAmount
    /\ MONEYUNIFY_AUTH_ID cfg = Some auth /\ auth <> []
    /\ url r = lit "https://api.moneyunify.one/payments/request"
    /\ method r = lit "POST"
    /\ headers r = [ (lit "Content-Type", lit "application/x-www-form-urlencoded");
                     (lit "Accept", lit "application/json") ]
    /\ form r = [ (lit "from_payer", phone);
                  (lit "amount", number_to_string parsedAmount);
                  (lit "auth_id", to_usv auth);
                  (lit "webhook_url", []) ].
Proof.
  intros Htrace.
  destruct (create_cases cfg provider req_body)
    as [[e H] | [H | [H | [H | (phone & x & Hvalid & [[_ H] | (auth & Hsome & Hne & H)])]]]];
    rewrite H in Htrace; try discriminate Htrace.
  injection Htrace as <-.
  exists phone, x, auth. split; [exact Hvalid|].
  repeat split; try assumption; reflexivity.
Qed.

Lemma payment_call_only_for_valid_request_witness :
  exists phone parsedAmount auth,
    valid_initiate (initiation (JString (lit "0971234567")) (JString (lit "50.00")))
      phone parsedAmount
    /\ MONEYUNIFY_AUTH_ID production = Some auth /\ auth <> []
    /\ url (payment_request (lit "auth-0001") (lit "0971234567") (parseFloat (lit "50.00")))
       = lit "https://api.moneyunify.one/payments/request"
    /\ method (payment_request (lit "auth-0001") (lit "0971234567") (parseFloat (lit "50.00")))
       = lit "POST"
    /\ headers (payment_request (lit "auth-0001") (lit "0971234567") (parseFloat (lit "50.00")))
       = [ (lit "Content-Type", lit "application/x-www-form-urlencoded");
           (lit "Accept", lit "application/json") ]
    /\ form (payment_request (lit "auth-0001") (lit "0971234567") (parseFloat (lit "50.00")))
       = [ (lit "from_payer", phone);
           (lit "amount", number_to_string parsedAmount);
           (lit "auth_id", to_usv auth);
           (lit "webhook_url", []) ].
Proof.
  exact (payment_call_only_for_valid_request production (always initiated)
           (initiation (JString (lit "0971234567")) (JString (lit "50.00")))
           (payment_request (lit "auth-0001") (lit "0971234567") (parseFloat (lit "50.00")))
           eq_refl).
Defined.

(** X3: a verify request with a truthy [transaction_id] that converts to
    the string [id], with the secret set, makes one call: a POST to
    [/payments/verify] of the provider with the two fixed headers, whose
    form holds the secret and then [id]. *)
Theorem verification_form_payload (cfg : Config) (provider : Provider)
  (req_body transaction_id : JsValue) (auth id : JsString) :
  Get req_body "transaction_id" = Normal transaction_id ->
  truthy transaction_id = true ->
  ToString transaction_id = Normal id ->
  MONEYUNIFY_AUTH_ID cfg = Some auth -> auth <> [] ->
  snd (verify_mobile_money_payment cfg provider req_body)
  = [ {| url := lit "https://api.moneyunify.one/payments/verify";
         method := lit "POST";
         headers := [ (lit "Content-Type", lit "application/x-www-form-urlencoded");
                      (lit "Accept", lit "application/json") ];
         form := [ (lit "auth_id", to_usv auth);
                   (lit "transaction_id", to_usv id) ] |} ].
Proof.
  intros Htid Ht Hs Hauth Hne.
  rewrite (verify_run _ _ _ _ _ _ Htid Ht Hauth Hne Hs). reflexivity.
Qed.

Lemma verification_form_payload_witness :
  snd (verify_mobile_money_payment production (always completed)
         (verification (integer 42)))
  = [ {| url := lit "https://api.moneyunify.one/payments/verify";
         method := lit "POST";
         headers := [ (lit "Content-Type", lit "application/x-www-form-urlencoded");
                      (lit "Accept", lit "application/json") ];
         form := [ (lit "auth_id", to_usv (lit "auth-0001"));
                   (lit "transaction_id", to_usv (lit "42")) ] |} ].
Proof.
  apply (verification_form_payload production (always completed)
           (verification (integer 42)) (integer 42) (lit "auth-0001") (lit "42"));
    try reflexivity.
  discriminate.
Defined.

(** X4: when the verify handler calls the provider, [transaction_id] is
    truthy and converts to a string, the secret is set, and the call is the
    one of X3. *)
Theorem verification_call_only_when_ready (cfg : Config) (provider : Provider)
  (req_body : JsValue) (r : OutboundRequest) :
  snd (verify_mobile_money_payment cfg provider req_body) = [r] ->
  exists transaction_id id auth,
    Get req_body "transaction_id" = Normal transaction_id
    /\ truthy transaction_id = true
    /\ ToString transaction_id = Normal id
    /\ MONEYUNIFY_AUTH_ID cfg = Some auth /\ auth <> []
    /\ url r = lit "https://api.moneyunify.one/payments/verify"
    /\ method r = lit "POST"
    /\ form r = [ (lit "auth_id", to_usv auth);
                  (lit "transaction_id", to_usv id) ].
Proof.
  intros Htrace.
  destruct (verify_cases cfg provider req_body)
    as [[e H] | [[_ H] | [[_ H] | (tid & id & auth & Htid & Ht & Hs & Hsome & Hne & H)]]];
    rewrite H in Htrace; try discriminate Htrace.
  injection Htrace as <-.
  exists tid, id, auth. repeat split; try assumption; reflexivity.
Qed.

Lemma verification_call_only_when_ready_witness :
  exists transaction_id id auth,
    Get (verification (JString (lit "T1"))) "transaction_id" = Normal transaction_id
    /\ truthy transaction_id = true
    /\ ToString transaction_id = Normal id
    /\ MONEYUNIFY_AUTH_ID production = Some auth /\ auth <> []
    /\ url (verification_request (lit "auth-0001") (lit "T1"))
       = lit "https://api.moneyunify.one/payments/verify"
    /\ method (verification_request (lit "auth-0001") (lit "T1")) = lit "POST"
    /\ form (verification_request (lit "auth-0001") (lit "T1"))
       = [ (lit "auth_id", to_usv auth); (lit "transaction_id", to_usv id) ].
Proof.
  exact (verification_call_only_when_ready production (always completed)
           (verification (JString (lit "T1")))
           (verification_request (lit "auth-0001") (lit "T1")) eq_refl).
Defined.

(** ** The shape of the answers *)

(** X5: every answer of the two payment handlers has status 200, 400 or
    500 and is an object whose first property is [isError], true exactly
    when the status is not 200; the answers of the 404 handler and of the
    error-handling middleware have the same shape. *)
Theorem answers_are_enveloped (cfg : Config) (provider : Provider)
  (req_body : JsValue) (path : JsString) (err : JsError) :
  (let answer := fst (create_mobile_money_payment cfg provider req_body) in
   (status_code answer = 200 \/ status_code answer = 400 \/ status_code answer = 500)
   /\ enveloped answer)
  /\ (let answer := fst (verify_mobile_money_payment cfg provider req_body) in
      (status_code answer = 200 \/ status_code answer = 400 \/ status_code answer = 500)
      /\ enveloped answer)
  /\ enveloped (not_found path)
  /\ enveloped (error_handler cfg err).
Proof.
  assert (forall e, (status_code (internal_error cfg e) = 200
                     \/ status_code (internal_error cfg e) = 400
                     \/ status_code (internal_error cfg e) = 500)
                    /\ enveloped (internal_error cfg e)) as Hinternal.
  { intros e. split; [auto|]. eexists. reflexivity. }
  repeat split.
  - destruct (create_cases cfg provider req_body)
      as [[e ->] | [-> | [-> | [-> | (phone & x & _ & [[_ ->] | (auth & _ & _ & ->)])]]]];
      cbn [fst]; auto; try apply Hinternal.
    destruct (create_settle_cases cfg (provider (payment_request auth phone x)))
      as [[e ->] | [(rs & d & _ & _ & _ & _ & _ & ->) | (rs & d & _ & _ & _ & _ & _ & _ & _ & ->)]];
      auto; apply Hinternal.
  - destruct (create_cases cfg provider req_body)
      as [[e ->] | [-> | [-> | [-> | (phone & x & _ & [[_ ->] | (auth & _ & _ & ->)])]]]];
      cbn [fst]; try apply Hinternal; try (eexists; reflexivity).
    destruct (create_settle_cases cfg (provider (payment_request auth phone x)))
      as [[e ->] | [(rs & d & _ & _ & _ & _ & _ & ->) | (rs & d & _ & _ & _ & _ & _ & _ & _ & ->)]];
      try apply Hinternal; eexists; reflexivity.
  - destruct (verify_cases cfg provider req_body)
      as [[e ->] | [[_ ->] | [[_ ->] | (tid & id & auth & _ & _ & _ & _ & _ & ->)]]];
      cbn [fst]; auto; try apply Hinternal.
    destruct (verify_settle_cases cfg tid (provider (verification_request auth id)))
      as [[e ->] | (rs & d & _ & _ & _ & _ & ->)]; auto; apply Hinternal.
  - destruct (verify_cases cfg provider req_body)
      as [[e ->] | [[_ ->] | [[_ ->] | (tid & id & auth & _ & _ & _ & _ & _ & ->)]]];
      cbn [fst]; try apply Hinternal; try (eexists; reflexivity).
    destruct (verify_settle_cases cfg tid (provider (verification_request auth id)))
      as [[e ->] | (rs & d & _ & _ & _ & _ & ->)];
      try apply Hinternal; eexists; reflexivity.
  - eexists. reflexivity.
  - eexists. reflexivity.
Qed.

(** ** The order of the checks *)

(** X6: a create request whose [from_payer] is falsy (absent, [null],
    empty, 0, [false]), or whose [from_payer] is a string while [amount] is
    falsy, is answered with 400 and ['Missing required fields: from_payer
    or amount'] without a call, whatever the configuration. *)
Theorem missing_fields_rejected (cfg : Config) (provider : Provider)
  (req_body from_payer amount : JsValue) :
  Get req_body "from_payer" = Normal from_payer ->
  Get req_body "amount" = Normal amount ->
  truthy from_payer = false
  \/ (exists s, from_payer = JString s) /\ truthy amount = false ->
  create_mobile_money_payment cfg provider req_body
  = (json_response 400
       [ ("isError", JBool true);
         ("message", JString (lit "Missing required fields: from_payer or amount")) ],
     []).
Proof. exact (create_missing cfg provider req_body from_payer amount). Qed.

Lemma missing_fields_rejected_witness :
  create_mobile_money_payment unconfigured (always initiated) (object [])
  = (json_response 400
       [ ("isError", JBool true);
         ("message", JString (lit "Missing required fields: from_payer or amount")) ],
     []).
Proof.
  apply (missing_fields_rejected unconfigured (always initiated) (object [])
           JUndefined JUndefined); try reflexivity.
  left. reflexivity.
Defined.

(** X7: the phone number is checked before the amount and before the
    secret: a non-empty string [from_payer] that is not ten digits, with any
    truthy [amount], is answered with 400 and the phone message without a
    call, whatever the amount holds and whether or not the secret is set. *)
Theorem phone_checked_first (cfg : Config) (provider : Provider)
  (req_body amount : JsValue) (phone : JsString) :
  Get req_body "from_payer" = Normal (JString phone) ->
  Get req_body "amount" = Normal amount ->
  phone <> [] -> truthy amount = true ->
  regex_test_10_digits phone = false ->
  create_mobile_money_payment cfg provider req_body
  = (json_response 400
       [ ("isError", JBool true);
         ("message", JString (lit "Invalid phone number format. Must be 10 digits (e.g., 0971234567)")) ],
     []).
Proof. exact (create_bad_phone cfg provider req_body amount phone). Qed.

Lemma phone_checked_first_witness :
  create_mobile_money_payment unconfigured (always initiated)
    (initiation (JString (lit "+260971234567")) (object [("toString", integer 1)]))
  = (json_response 400
       [ ("isError", JBool true);
         ("message", JString (lit "Invalid phone number format. Must be 10 digits (e.g., 0971234567)")) ],
     []).
Proof.
  apply (phone_checked_first unconfigured (always initiated) _
           (object [("toString", integer 1)]) (lit "+260971234567"));
    try reflexivity.
  discriminate.
Defined.

(** X8: the amount is checked before the secret: with a ten-digit
    [from_payer], a truthy [amount] that converts to a string which
    [parseFloat] reads as NaN or as a value not above zero is answered with
    400 and the amount message without a call, whether or not the secret is
    set. *)
Theorem amount_checked_before_secret (cfg : Config) (provider : Provider)
  (req_body amount : JsValue) (phone input : JsString) :
  Get req_body "from_payer" = Normal (JString phone) ->
  Get req_body "amount" = Normal amount ->
  regex_test_10_digits phone = true -> truthy amount = true ->
  ToString amount = Normal input ->
  isNaN (parseFloat input) || le_zero (parseFloat input) = true ->
  create_mobile_money_payment cfg provider req_body
  = (json_response 400
       [ ("isError", JBool true);
         ("message", JString (lit "Invalid amount. Must be a positive number.")) ],
     []).
Proof. exact (create_bad_amount cfg provider req_body amount phone input). Qed.

Lemma amount_checked_before_secret_witness :
  create_mobile_money_payment unconfigured (always initiated)
    (initiation (JString (lit "0971234567")) (JString (lit "-5")))
  = (json_response 400
       [ ("isError", JBool true);
         ("message", JString (lit "Invalid amount. Must be a positive number.")) ],
     []).
Proof.
  apply (amount_checked_before_secret unconfigured (always initiated) _
           (JString (lit "-5")) (lit "0971234567") (lit "-5"));
    reflexivity.
Defined.

(** X9: the verify handler answers 400 exactly when [transaction_id] is
    falsy; the answer is then ['Missing required field: transaction_id']
    and no call goes out, whatever the configuration. *)
Theorem verify_400_iff_id_missing (cfg : Config) (provider : Provider)
  (req_body : JsValue) :
  nullish req_body = false ->
  (status_code (fst (verify_mobile_money_payment cfg provider req_body)) = 400
   <-> truthy (field req_body "transaction_id") = false)
  /\ (truthy (field req_body "transaction_id") = false ->
      verify_mobile_money_payment cfg provider req_body
      = (json_response 400
           [ ("isError", JBool true);
             ("message", JString (lit "Missing required field: transaction_id")) ],
         [])).
Proof.
  intros Hbody.
  assert (truthy (field req_body "transaction_id") = false ->
          verify_mobile_money_payment cfg provider req_body
          = (missing_transaction_id, [])) as Hmissing.
  { intros Hf. now apply (verify_missing _ _ _ _ (get_field _ _ Hbody)). }
  split; [split|exact Hmissing].
  - intros Hstatus.
    destruct (verify_cases cfg provider req_body)
      as [[e H] | [[Hf _] | [[_ H] | (tid & id & auth & Htid & Ht & _ & _ & _ & H)]]];
      try assumption; rewrite H in Hstatus; cbn [fst] in Hstatus;
      try discriminate Hstatus.
    destruct (verify_settle_cases cfg tid (provider (verification_request auth id)))
      as [[e He] | (rs & d & _ & _ & _ & _ & He)];
      rewrite He in Hstatus; discriminate Hstatus.
  - intros Hf. rewrite (Hmissing Hf). reflexivity.
Qed.

Lemma verify_400_iff_id_missing_witness :
  truthy (field (verification (JString [])) "transaction_id") = false
  /\ verify_mobile_money_payment unconfigured (always completed)
       (verification (JString []))
     = (json_response 400
          [ ("isError", JBool true);
            ("message", JString (lit "Missing required field: transaction_id")) ],
        []).
Proof.
  split; [reflexivity|].
  exact (proj2 (verify_400_iff_id_missing unconfigured (always completed)
                  (verification (JString [])) eq_refl) eq_refl).
Defined.

(** X10: with the secret set, a truthy [transaction_id] that cannot be
    converted to a string (an object with a [toString] property of its own)
    makes [formData.append] throw: the relay answers with the [catch] block
    and no call goes out. *)
Theorem unconvertible_transaction_id (cfg : Config) (provider : Provider)
  (req_body transaction_id : JsValue) (e : JsError) :
  Get req_body "transaction_id" = Normal transaction_id ->
  truthy transaction_id = true ->
  auth_id_missing cfg = false ->
  ToString transaction_id = Throw e ->
  verify_mobile_money_payment cfg provider req_body
  = (json_response 500
       [ ("isError", JBool true);
         ("message", JString (lit "Internal server error"));
         ("error", JString (if is_development cfg then error_message e
                            else lit "An error occurred")) ],
     []).
Proof. exact (verify_id_throws cfg provider req_body transaction_id e). Qed.

Lemma unconvertible_transaction_id_witness :
  verify_mobile_money_payment development (always completed)
    (verification (object [("toString", JNull)]))
  = (json_response 500
       [ ("isError", JBool true);
         ("message", JString (lit "Internal server error"));
         ("error", JString (lit "Cannot convert object to primitive value")) ],
     []).
Proof.
  exact (unconvertible_transaction_id development (always completed)
           (verification (object [("toString", JNull)]))
           (object [("toString", JNull)]) _ eq_refl eq_refl eq_refl eq_refl).
Defined.

(** ** The configuration, as /health reports it *)

(** X11: the flag [moneyunify_configured] of GET /health tells whether the
    relay can call the provider: when it is [false] no request makes
    either handler issue a call; when it is [true] every create request
    that passes the three checks issues one. *)
Theorem health_flag_matches_handlers (cfg : Config) (now : JsString) :
  exists configured,
    body (health cfg now)
    = object [ ("status", JString (lit "ok"));
               ("service", JString (lit "SafeCircle Payment API"));
               ("timestamp", JString now);
               ("moneyunify_configured", JBool configured) ]
    /\ (configured = false ->
        forall provider req_body,
          snd (create_mobile_money_payment cfg provider req_body) = []
          /\ snd (verify_mobile_money_payment cfg provider req_body) = [])
    /\ (configured = true ->
        forall provider req_body phone parsedAmount,
          valid_initiate req_body phone parsedAmount ->
          exists r, snd (create_mobile_money_payment cfg provider req_body) = [r]).
Proof.
  exists (negb (auth_id_missing cfg)). split; [reflexivity|]. split.
  - intros Hflag provider req_body.
    apply negb_false_iff in Hflag. split.
    + destruct (create_cases cfg provider req_body)
        as [[e ->] | [-> | [-> | [-> | (phone & x & _ & [[_ ->] | (auth & Hsome & Hne & _)])]]]];
        try reflexivity.
      rewrite (auth_id_set _ _ Hsome Hne) in Hflag. discriminate.
    + destruct (verify_cases cfg provider req_body)
        as [[e ->] | [[_ ->] | [[_ ->] | (tid & id & auth & _ & _ & _ & Hsome & Hne & _)]]];
        try reflexivity.
      rewrite (auth_id_set _ _ Hsome Hne) in Hflag. discriminate.
  - intros Hflag provider req_body phone x Hvalid.
    apply negb_true_iff in Hflag.
    destruct (auth_id_present cfg Hflag) as (auth & Hsome & Hne).
    rewrite (create_valid_run _ _ _ _ _ _ Hvalid Hsome Hne).
    eexists. reflexivity.
Qed.

Lemma health_flag_matches_handlers_witness :
  body (health unconfigured (lit "2025-01-01T00:00:00.000Z"))
  = object [ ("status", JString (lit "ok"));
             ("service", JString (lit "SafeCircle Payment API"));
             ("timestamp", JString (lit "2025-01-01T00:00:00.000Z"));
             ("moneyunify_configured", JBool false) ]
  /\ snd (create_mobile_money_payment unconfigured (always initiated)
            (initiation (JString (lit "0971234567")) (JString (lit "50.00"))))
     = [].
Proof.
  split; [reflexivity|].
  destruct (health_flag_matches_handlers unconfigured (lit "2025-01-01T00:00:00.000Z"))
    as (configured & Hbody & Hoff & _).
  apply Hoff.
  injection Hbody as Hflag. symmetry. exact Hflag.
Defined.

(** ** What an answer tells about the provider *)

(** X12: the create handler answers 200 only when it has called the
    provider and the provider has answered with a status in 200..299 and a
    JSON body without a truthy [isError] and with a [data]; the answer then
    carries the provider's [message] and [data]. *)
Theorem success_means_provider_accepted (cfg : Config) (provider : Provider)
  (req_body : JsValue) :
  status_code (fst (create_mobile_money_payment cfg provider req_body)) = 200 ->
  exists r response data,
    snd (create_mobile_money_payment cfg provider req_body) = [r]
    /\ provider r = Normal response
    /\ says_json response = true /\ ok response = true
    /\ json response = Normal data
    /\ has_error_flag data = false
    /\ nullish (field data "data") = false
    /\ fst (create_mobile_money_payment cfg provider req_body)
       = json_response 200
           [ ("isError", JBool false);
             ("message", field data "message");
             ("data", field data "data") ].
Proof.
  intros Hstatus.
  destruct (create_cases cfg provider req_body)
    as [[e H] | [H | [H | [H | (phone & x & _ & [[_ H] | (auth & _ & _ & H)])]]]];
    rewrite H in *; cbn [fst snd] in *; try discriminate Hstatus.
  destruct (create_settle_cases cfg (provider (payment_request auth phone x)))
    as [[e He] | [(rs & d & _ & _ & _ & _ & _ & He)
                 | (rs & d & Hp & Hct & Hjson & _ & Hflag & Hok & Hdd & He)]];
    rewrite He in *; try discriminate Hstatus.
  exists (payment_request auth phone x), rs, d. auto 10.
Qed.

Lemma success_means_provider_accepted_witness :
  exists r response data,
    snd (create_mobile_money_payment production (always initiated)
           (initiation (JString (lit "0971234567")) (JString (lit "50.00")))) = [r]
    /\ always initiated r = Normal response
    /\ says_json response = true /\ ok response = true
    /\ json response = Normal data
    /\ has_error_flag data = false
    /\ nullish (field data "data") = false
    /\ fst (create_mobile_money_payment production (always initiated)
              (initiation (JString (lit "0971234567")) (JString (lit "50.00"))))
       = json_response 200
           [ ("isError", JBool false);
             ("message", field data "message");
             ("data", field data "data") ].
Proof.
  exact (success_means_provider_accepted production (always initiated)
           (initiation (JString (lit "0971234567")) (JString (lit "50.00")))
           eq_refl).
Defined.

(** X13: the verify handler answers 200 only when it has called the
    provider and the provider has answered with a JSON body other than
    [null]; the answer then carries the [message] and [data] of that
    body. *)
Theorem verified_means_provider_answered (cfg : Config) (provider : Provider)
  (req_body : JsValue) :
  status_code (fst (verify_mobile_money_payment cfg provider req_body)) = 200 ->
  exists r response data,
    snd (verify_mobile_money_payment cfg provider req_body) = [r]
    /\ provider r = Normal response
    /\ says_json response = true
    /\ json response = Normal data
    /\ nullish data = false
    /\ fst (verify_mobile_money_payment cfg provider req_body)
       = json_response 200
           [ ("isError", JBool false);
             ("message", field data "message");
             ("data", field data "data") ].
Proof.
  intros Hstatus.
  destruct (verify_cases cfg provider req_body)
    as [[e H] | [[_ H] | [[_ H] | (tid & id & auth & _ & _ & _ & _ & _ & H)]]];
    rewrite H in *; cbn [fst snd] in *; try discriminate Hstatus.
  destruct (verify_settle_cases cfg tid (provider (verification_request auth id)))
    as [[e He] | (rs & d & Hp & Hct & Hjson & Hdata & He)];
    rewrite He in *; try discriminate Hstatus.
  exists (verification_request auth id), rs, d. auto 10.
Qed.

Lemma verified_means_provider_answered_witness :
  exists r response data,
    snd (verify_mobile_money_payment production (always completed)
           (verification (JString (lit "T1")))) = [r]
    /\ always completed r = Normal response
    /\ says_json response = true
    /\ json response = Normal data
    /\ nullish data = false
    /\ fst (verify_mobile_money_payment production (always completed)
              (verification (JString (lit "T1"))))
       = json_response 200
           [ ("isError", JBool false);
             ("message", field data "message");
             ("data", field data "data") ].
Proof.
  exact (verified_means_provider_answered production (always completed)
           (verification (JString (lit "T1"))) eq_refl).
Defined.

(** X14: when the call of either handler fails ([fetch] rejects with [e]:
    no connection, no name, a reset), the relay answers with the [catch]
    block: 500, ['Internal server error'], and the message of [e] only in
    development. *)
Theorem network_failure_is_internal_error (cfg : Config) (provider : Provider)
  (req_body : JsValue) (r : OutboundRequest) (e : JsError) :
  provider r = Throw e ->
  (snd (create_mobile_money_payment cfg provider req_body) = [r] ->
   fst (create_mobile_money_payment cfg provider req_body)
   = json_response 500
       [ ("isError", JBool true);
         ("message", JString (lit "Internal server error"));
         ("error", JString (if is_development cfg then error_message e
                            else lit "An error occurred")) ])
  /\ (snd (verify_mobile_money_payment cfg provider req_body) = [r] ->
      fst (verify_mobile_money_payment cfg provider req_body)
      = json_response 500
          [ ("isError", JBool true);
            ("message", JString (lit "Internal server error"));
            ("error", JString (if is_development cfg then error_message e
                               else lit "An error occurred")) ]).
Proof.
  intros Hp. split; intros Htrace.
  - rewrite (create_reaches _ _ _ _ Htrace). unfold settle. rewrite Hp. reflexivity.
  - destruct (verify_reaches _ _ _ _ Htrace) as (tid & _ & ->).
    unfold settle. rewrite Hp. reflexivity.
Qed.

Lemma network_failure_is_internal_error_witness :
  fst (create_mobile_money_payment development (unreachable "fetch failed")
         (initiation (JString (lit "0971234567")) (JString (lit "50.00"))))
  = json_response 500
      [ ("isError", JBool true);
        ("message", JString (lit "Internal server error"));
        ("error", JString (lit "fetch failed")) ]
  /\ fst (verify_mobile_money_payment production (unreachable "fetch failed")
            (verification (JString (lit "T1"))))
     = json_response 500
         [ ("isError", JBool true);
           ("message", JString (lit "Internal server error"));
           ("error", JString (lit "An error occurred")) ].
Proof.
  split.
  - exact (proj1 (network_failure_is_internal_error development
                    (unreachable "fetch failed")
                    (initiation (JString (lit "0971234567")) (JString (lit "50.00")))
                    (payment_request (lit "auth-0001") (lit "0971234567")
                       (parseFloat (lit "50.00")))
                    _ eq_refl) eq_refl).
  - exact (proj2 (network_failure_is_internal_error production
                    (unreachable "fetch failed")
                    (verification (JString (lit "T1")))
                    (verification_request (lit "auth-0001") (lit "T1"))
                    _ eq_refl) eq_refl).
Defined.

(** X15: when the provider announces JSON and the body does not parse
    ([response.json()] rejects with [e]), both handlers answer with the
    [catch] block: 500, ['Internal server error'], and the message of [e]
    only in development. *)
Theorem unparsable_json_is_internal_error (cfg : Config) (provider : Provider)
  (req_body : JsValue) (r : OutboundRequest) (response : Response) (e : JsError) :
  provider r = Normal response ->
  says_json response = true ->
  json response = Throw e ->
  (snd (create_mobile_money_payment cfg provider req_body) = [r] ->
   fst (create_mobile_money_payment cfg provider req_body)
   = json_response 500
       [ ("isError", JBool true);
         ("message", JString (lit "Internal server error"));
         ("error", JString (if is_development cfg then error_message e
                            else lit "An error occurred")) ])
  /\ (snd (verify_mobile_money_payment cfg provider req_body) = [r] ->
      fst (verify_mobile_money_payment cfg provider req_body)
      = json_response 500
          [ ("isError", JBool true);
            ("message", JString (lit "Internal server error"));
            ("error", JString (if is_development cfg then error_message e
                               else lit "An error occurred")) ]).
Proof.
  intros Hp Hct Hjson.
  destruct (read_json_body_throws _ _ Hct Hjson) as [Hcreate Hverify].
  split; intros Htrace.
  - rewrite (create_reaches _ _ _ _ Htrace). unfold settle.
    rewrite Hp, Hcreate. reflexivity.
  - destruct (verify_reaches _ _ _ _ Htrace) as (tid & _ & ->).
    unfold settle. rewrite Hp, Hverify. reflexivity.
Qed.

Lemma unparsable_json_is_internal_error_witness :
  fst (verify_mobile_money_payment development (always truncated_json)
         (verification (JString (lit "T1"))))
  = json_response 500
      [ ("isError", JBool true);
        ("message", JString (lit "Internal server error"));
        ("error", JString (lit "Unexpected end of JSON input")) ].
Proof.
  exact (proj2 (unparsable_json_is_internal_error development
                  (always truncated_json) (verification (JString (lit "T1")))
                  (verification_request (lit "auth-0001") (lit "T1"))
                  truncated_json _ eq_refl eq_refl eq_refl) eq_refl).
Defined.

(** ** The pattern of line 70 *)

Lemma match_digits_spec (n : nat) (s rest : JsString) :
  match_digits n s = Some rest
  <-> exists ds, s = ds ++ rest /\ List.length ds = n
                 /\ Forall (fun c => (48 <= c <= 57)%N) ds.
Proof.
  revert s. induction n as [|n IH]; intros s; cbn [match_digits].
  - split.
    + intros [= ->]. exists []. repeat split. constructor.
    + intros (ds & -> & Hlen & _). destruct ds; [reflexivity | discriminate].
  - destruct s as [|c s].
    + split; [discriminate|].
      intros (ds & Heq & Hlen & _). destruct ds; discriminate.
    + unfold is_digit. split.
      * destruct ((48 <=? c)%N && (c <=? 57)%N) eqn:Hc; [|discriminate].
        intros Hm. apply IH in Hm as (ds & -> & Hlen & Hds).
        exists (c :: ds). repeat split; [cbn; now rewrite Hlen|].
        constructor; [|exact Hds].
        apply andb_prop in Hc as [H1 H2].
        apply N.leb_le in H1, H2. lia.
      * intros (ds & Heq & Hlen & Hds).
        destruct ds as [|d ds]; [discriminate|].
        injection Heq as -> ->. injection Hlen as Hlen.
        inversion Hds as [|? ? Hd Hds']; subst.
        assert ((48 <=? d)%N && (d <=? 57)%N = true) as ->
          by (apply andb_true_intro; split; apply N.leb_le; lia).
        apply IH. exists ds. auto.
Qed.

(** X16: [/^\d{10}$/] accepts a string exactly when it is ten code units
    long and each is one of ['0'] to ['9']: no sign, no space, no line
    break at the end, no digit of another script. *)
Theorem ten_digits_exactly (s : JsString) :
  regex_test_10_digits s = true
  <-> List.length s = 10%nat /\ Forall (fun c => (48 <= c <= 57)%N) s.
Proof.
  unfold regex_test_10_digits. split.
  - destruct (match_digits 10 s) as [[|c rest]|] eqn:Hm; try discriminate.
    intros _. apply match_digits_spec in Hm as (ds & -> & Hlen & Hds).
    rewrite app_nil_r. auto.
  - intros [Hlen Hds].
    assert (match_digits 10 s = Some []) as ->; [|reflexivity].
    apply match_digits_spec. exists s. rewrite app_nil_r. auto.
Qed.

Lemma ten_digits_exactly_witness :
  regex_test_10_digits (lit "0971234567") = true
  /\ regex_test_10_digits (lit "0971234567" ++ [10%N]) = false.
Proof.
  split.
  - apply (proj2 (ten_digits_exactly (lit "0971234567"))).
    split; [reflexivity|]. repeat constructor; cbn; lia.
  - destruct (regex_test_10_digits (lit "0971234567" ++ [10%N])) eqn:Hre;
      [|reflexivity].
    apply (proj1 (ten_digits_exactly _)) in Hre as [Hlen _]. discriminate Hlen.
Defined.

(** ** What the answers do not depend on *)

Lemma settle_development (cfg1 cfg2 : Config)
  (translate : Response -> M HttpResponse) (outcome : Completion Response) :
  is_development cfg1 = is_development cfg2 ->
  settle cfg1 translate outcome = settle cfg2 translate outcome.
Proof.
  intros Hdev. unfold settle, internal_error. rewrite Hdev. reflexivity.
Qed.

(** A create request passes the checks, or its answer is fixed by the
    request and by whether the relay runs in development. *)
Lemma create_rejection_uniform (req_body : JsValue) :
  (exists phone parsedAmount, valid_initiate req_body phone parsedAmount)
  \/ exists answer : bool -> HttpResponse,
       forall cfg provider,
         create_mobile_money_payment cfg provider req_body
         = (answer (is_development cfg), []).
Proof.
  destruct (nullish req_body) eqn:Hbody.
  { right.
    exists (fun dev : bool =>
              json_response 500
                [ ("isError", JBool true);
                  ("message", JString (lit "Internal server error"));
                  ("error", JString (if dev then lit "Cannot destructure property 'from_payer' of 'req.body' as it is undefined."
                                     else lit "An error occurred")) ]).
    intros cfg provider. now apply create_no_body. }
  destruct (get_total req_body "from_payer" Hbody) as [from_payer Hfp].
  destruct (get_total req_body "amount" Hbody) as [amount Ham].
  destruct (truthy from_payer) eqn:Hf.
  2:{ right. exists (fun _ => missing_fields). intros cfg provider.
      apply (create_missing _ _ _ _ _ Hfp Ham). now left. }
  assert ((exists s, from_payer = JString s) \/ forall s, from_payer <> JString s)
    as [[phone ->] | Hns].
  { destruct from_payer; try (right; discriminate). left. now eexists. }
  2:{ right.
      exists (fun dev : bool =>
                json_response 500
                  [ ("isError", JBool true);
                    ("message", JString (lit "Internal server error"));
                    ("error", JString (if dev then lit "from_payer.substring is not a function"
                                       else lit "An error occurred")) ]).
      intros cfg provider.
      apply (non_string_phone_throws cfg provider req_body from_payer);
        try assumption; intros ->; discriminate. }
  assert (phone <> []) as Hne by (intros ->; discriminate).
  destruct (truthy amount) eqn:Ha.
  2:{ right. exists (fun _ => missing_fields). intros cfg provider.
      apply (create_missing _ _ _ _ _ Hfp Ham). right. eauto. }
  destruct (regex_test_10_digits phone) eqn:Hre.
  2:{ right. exists (fun _ => invalid_phone). intros cfg provider.
      now apply (create_bad_phone _ _ _ amount phone). }
  destruct (ToString amount) as [input|e] eqn:Hin.
  2:{ right.
      exists (fun dev : bool =>
                json_response 500
                  [ ("isError", JBool true);
                    ("message", JString (lit "Internal server error"));
                    ("error", JString (if dev then error_message e
                                       else lit "An error occurred")) ]).
      intros cfg provider. now apply (create_amount_throws _ _ _ amount phone). }
  destruct (isNaN (parseFloat input) || le_zero (parseFloat input)) eqn:Hbad.
  { right. exists (fun _ => invalid_amount). intros cfg provider.
    now apply (create_bad_amount _ _ _ amount phone input). }
  apply orb_false_elim in Hbad as [Hnan Hle].
  left. exists phone, (parseFloat input).
  repeat split; try assumption. exists amount, input. repeat split; assumption.
Qed.

(** X17: a create request that does not pass the three checks gets its
    answer from the request alone: the same answer and no call whatever
    the secret is, set or not, and whatever the provider would do (two
    deployments that agree on [NODE_ENV] being ['development']). *)
Theorem rejection_ignores_secret_and_provider (cfg1 cfg2 : Config)
  (provider1 provider2 : Provider) (req_body : JsValue) :
  ~ (exists phone parsedAmount, valid_initiate req_body phone parsedAmount) ->
  is_development cfg1 = is_development cfg2 ->
  create_mobile_money_payment cfg1 provider1 req_body
  = create_mobile_money_payment cfg2 provider2 req_body
  /\ snd (create_mobile_money_payment cfg1 provider1 req_body) = [].
Proof.
  intros Hinvalid Hdev.
  destruct (create_rejection_uniform req_body) as [Hvalid | [answer Hanswer]].
  - contradiction.
  - rewrite !Hanswer, Hdev. split; reflexivity.
Qed.

Lemma rejection_ignores_secret_and_provider_witness :
  create_mobile_money_payment production (always initiated)
    (initiation (JString (lit "097-123-4567")) (JString (lit "50.00")))
  = create_mobile_money_payment unconfigured (unreachable "fetch failed")
      (initiation (JString (lit "097-123-4567")) (JString (lit "50.00")))
  /\ snd (create_mobile_money_payment production (always initiated)
            (initiation (JString (lit "097-123-4567")) (JString (lit "50.00"))))
     = [].
Proof.
  apply (rejection_ignores_secret_and_provider production unconfigured
           (always initiated) (unreachable "fetch failed")).
  - intros (phone & x & Hfp & Hre & _).
    injection Hfp as <-. discriminate Hre.
  - reflexivity.
Defined.

Lemma verify_answer_without_secret (cfg1 cfg2 : Config) (provider : Provider)
  (req_body : JsValue) :
  is_development cfg1 = is_development cfg2 ->
  auth_id_missing cfg1 = false -> auth_id_missing cfg2 = false ->
  (forall r r', provider r = provider r') ->
  fst (verify_mobile_money_payment cfg1 provider req_body)
  = fst (verify_mobile_money_payment cfg2 provider req_body).
Proof.
  intros Hdev H1 H2 Hconst.
  destruct (nullish req_body) eqn:Hbody.
  { rewrite !verify_no_body by assumption. cbn [fst].
    unfold internal_error. now rewrite Hdev. }
  pose proof (get_field req_body "transaction_id" Hbody) as Htid.
  destruct (truthy (field req_body "transaction_id")) eqn:Ht.
  2:{ now rewrite !(verify_missing _ _ _ _ Htid Ht). }
  destruct (auth_id_present cfg1 H1) as (auth1 & Hsome1 & Hne1).
  destruct (auth_id_present cfg2 H2) as (auth2 & Hsome2 & Hne2).
  destruct (ToString (field req_body "transaction_id")) as [id|e] eqn:Hs.
  - rewrite (verify_run cfg1 _ _ _ _ _ Htid Ht Hsome1 Hne1 Hs).
    rewrite (verify_run cfg2 _ _ _ _ _ Htid Ht Hsome2 Hne2 Hs).
    cbn [fst].
    rewrite (Hconst (verification_request auth1 id) (verification_request auth2 id)).
    now apply settle_development.
  - rewrite (verify_id_throws cfg1 _ _ _ _ Htid Ht H1 Hs).
    rewrite (verify_id_throws cfg2 _ _ _ _ Htid Ht H2 Hs).
    cbn [fst]. unfold internal_error. now rewrite Hdev.
Qed.

(** X18: the value of the secret is in no answer of the relay itself: two
    deployments whose secrets are set and differ (and that agree on
    [NODE_ENV] being ['development']) give the same answer to every request
    on /health and, as long as the provider answers both calls alike, on
    the two payment handlers. *)
Theorem secret_stays_out_of_answers (cfg1 cfg2 : Config) (provider : Provider)
  (req_body : JsValue) (now : JsString) :
  is_development cfg1 = is_development cfg2 ->
  auth_id_missing cfg1 = false -> auth_id_missing cfg2 = false ->
  (forall r r', provider r = provider r') ->
  fst (create_mobile_money_payment cfg1 provider req_body)
  = fst (create_mobile_money_payment cfg2 provider req_body)
  /\ fst (verify_mobile_money_payment cfg1 provider req_body)
     = fst (verify_mobile_money_payment cfg2 provider req_body)
  /\ health cfg1 now = health cfg2 now.
Proof.
  intros Hdev H1 H2 Hconst. split; [|split].
  - destruct (create_rejection_uniform req_body)
      as [(phone & x & Hvalid) | [answer Hanswer]].
    + destruct (auth_id_present cfg1 H1) as (auth1 & Hsome1 & Hne1).
      destruct (auth_id_present cfg2 H2) as (auth2 & Hsome2 & Hne2).
      rewrite (create_valid_run cfg1 _ _ _ _ _ Hvalid Hsome1 Hne1).
      rewrite (create_valid_run cfg2 _ _ _ _ _ Hvalid Hsome2 Hne2).
      cbn [fst].
      rewrite (Hconst (payment_request auth1 phone x) (payment_request auth2 phone x)).
      now apply settle_development.
    + now rewrite !Hanswer, Hdev.
  - now apply verify_answer_without_secret.
  - unfold health. now rewrite H1, H2.
Qed.

Lemma secret_stays_out_of_answers_witness :
  fst (create_mobile_money_payment production (always initiated)
         (initiation (JString (lit "0971234567")) (JString (lit "50.00"))))
  = fst (create_mobile_money_payment other_secret (always initiated)
           (initiation (JString (lit "0971234567")) (JString (lit "50.00"))))
  /\ fst (verify_mobile_money_payment production (always initiated)
            (initiation (JString (lit "0971234567")) (JString (lit "50.00"))))
     = fst (verify_mobile_money_payment other_secret (always initiated)
              (initiation (JString (lit "0971234567")) (JString (lit "50.00"))))
  /\ health production (lit "2025-01-01T00:00:00.000Z")
     = health other_secret (lit "2025-01-01T00:00:00.000Z").
Proof.
  apply (secret_stays_out_of_answers production other_secret (always initiated));
    reflexivity.
Defined.

(** ** The body of the call, as sent *)

Lemma urlencoded_digits (s : JsString) :
  Forall (fun c => (48 <= c <= 57)%N) s -> urlencoded s = s.
Proof.
  unfold urlencoded.
  induction 1 as [|c s Hc Hs IH]; [reflexivity|].
  cbn [code_points].
  assert (is_high_surrogate c = false) as ->
    by (unfold is_high_surrogate; apply andb_false_intro1, N.leb_gt; lia).
  cbn [flat_map]. unfold utf8 at 1.
  assert ((c <? 128)%N = true) as -> by (apply N.ltb_lt; lia).
  cbn [app flat_map]. rewrite IH.
  unfold urlencoded_byte, is_digit.
  assert ((c =? 32)%N = false) as -> by (apply N.eqb_neq; lia).
  assert ((48 <=? c)%N = true) as -> by (apply N.leb_le; lia).
  assert ((c <=? 57)%N = true) as -> by (apply N.leb_le; lia).
  reflexivity.
Qed.

(** X19: the body of the call of a valid create request, as
    [formData.toString()] writes it: the four fields in the order of the
    source, the caller's ten digits as they are, and an empty
    [webhook_url]. *)
Theorem payment_body_as_sent (cfg : Config) (provider : Provider)
  (req_body : JsValue) (phone auth : JsString) (parsedAmount : spec_float) :
  valid_initiate req_body phone parsedAmount ->
  MONEYUNIFY_AUTH_ID cfg = Some auth -> auth <> [] ->
  exists r,
    snd (create_mobile_money_payment cfg provider req_body) = [r]
    /\ request_body r
       = lit "from_payer=" ++ phone
         ++ lit "&amount=" ++ urlencoded (number_to_string parsedAmount)
         ++ lit "&auth_id=" ++ urlencoded (to_usv auth)
         ++ lit "&webhook_url=".
Proof.
  intros Hvalid Hauth Hne.
  exists (payment_request auth phone parsedAmount).
  rewrite (create_valid_run _ _ _ _ _ _ Hvalid Hauth Hne).
  split; [reflexivity|].
  destruct Hvalid as (_ & Hre & _).
  apply ten_digits_exactly in Hre as [_ Hdigits].
  unfold request_body, payment_request.
  cbn [form URLSearchParams_toString].
  rewrite (urlencoded_digits phone Hdigits).
  generalize (urlencoded (number_to_string parsedAmount)) as amount.
  generalize (urlencoded (to_usv auth)) as secret.
  intros secret amount.
  replace (urlencoded (lit "from_payer")) with (lit "from_payer") by reflexivity.
  replace (urlencoded (lit "amount")) with (lit "amount") by reflexivity.
  replace (urlencoded (lit "auth_id")) with (lit "auth_id") by reflexivity.
  replace (urlencoded (lit "webhook_url")) with (lit "webhook_url") by reflexivity.
  replace (urlencoded []) with (@nil N) by reflexivity.
  cbn [lit app]. reflexivity.
Qed.

Lemma payment_body_as_sent_witness :
  exists r,
    snd (create_mobile_money_payment production (always initiated)
           (initiation (JString (lit "0971234567")) (JString (lit "50.00")))) = [r]
    /\ request_body r
       = lit "from_payer=" ++ lit "0971234567"
         ++ lit "&amount=" ++ urlencoded (number_to_string (parseFloat (lit "50.00")))
         ++ lit "&auth_id=" ++ urlencoded (to_usv (lit "auth-0001"))
         ++ lit "&webhook_url=".
Proof.
  apply (payment_body_as_sent production (always initiated)
           (initiation (JString (lit "0971234567")) (JString (lit "50.00")))
           (lit "0971234567") (lit "auth-0001") (parseFloat (lit "50.00")));
    try reflexivity; try discriminate.
  repeat split; try reflexivity.
  exists (JString (lit "50.00")), (lit "50.00"). repeat split; reflexivity.
Defined.

(** ** More on what an answer tells *)

(** X20: after a call, the create handler answers 400 only when the
    provider has answered with a JSON body other than [null] that has a
    truthy [isError], or with a status outside 200..299; the message is the
    provider's when that is truthy and ['Payment initiation failed']
    otherwise. *)
Theorem client_error_after_call_is_the_providers (cfg : Config)
  (provider : Provider) (req_body : JsValue) (r : OutboundRequest) :
  snd (create_mobile_money_payment cfg provider req_body) = [r] ->
  status_code (fst (create_mobile_money_payment cfg provider req_body)) = 400 ->
  exists response data,
    provider r = Normal response
    /\ says_json response = true
    /\ json response = Normal data
    /\ nullish data = false
    /\ (has_error_flag data = true \/ ok response = false)
    /\ fst (create_mobile_money_payment cfg provider req_body)
       = json_response 400
           [ ("isError", JBool true);
             ("message", if truthy (field data "message")
                         then field data "message"
                         else JString (lit "Payment initiation failed")) ].
Proof.
  intros Htrace Hstatus.
  rewrite (create_reaches _ _ _ _ Htrace) in *.
  destruct (create_settle_cases cfg (provider r))
    as [[e He] | [(rs & d & Hp & Hct & Hjson & Hdata & Hflag & He)
                 | (rs & d & _ & _ & _ & _ & _ & _ & _ & He)]];
    rewrite He in *; try discriminate Hstatus.
  exists rs, d. auto 10.
Qed.

Lemma client_error_after_call_is_the_providers_witness :
  exists response data,
    always failed
      (payment_request (lit "auth-0001") (lit "0971234567") (parseFloat (lit "50.00")))
    = Normal response
    /\ says_json response = true
    /\ json response = Normal data
    /\ nullish data = false
    /\ (has_error_flag data = true \/ ok response = false)
    /\ fst (create_mobile_money_payment production (always failed)
              (initiation (JString (lit "0971234567")) (JString (lit "50.00"))))
       = json_response 400
           [ ("isError", JBool true);
             ("message", if truthy (field data "message")
                         then field data "message"
                         else JString (lit "Payment initiation failed")) ].
Proof.
  exact (client_error_after_call_is_the_providers production (always failed)
           (initiation (JString (lit "0971234567")) (JString (lit "50.00")))
           (payment_request (lit "auth-0001") (lit "0971234567")
              (parseFloat (lit "50.00")))
           eq_refl eq_refl).
Defined.

(** X21: the answer ['Payment service not configured. Please contact
    support.'] is given only when the secret is unset (or empty): by the
    create handler to a request that passes the three checks, by the verify
    handler to a request with a truthy [transaction_id]. *)
Theorem config_error_only_when_unconfigured (cfg : Config) (provider : Provider)
  (req_body : JsValue) :
  (fst (create_mobile_money_payment cfg provider req_body)
   = json_response 500
       [ ("isError", JBool true);
         ("message", JString (lit "Payment service not configured. Please contact support.")) ] ->
   auth_id_missing cfg = true
   /\ exists phone parsedAmount, valid_initiate req_body phone parsedAmount)
  /\ (fst (verify_mobile_money_payment cfg provider req_body)
      = json_response 500
          [ ("isError", JBool true);
            ("message", JString (lit "Payment service not configured. Please contact support.")) ] ->
      auth_id_missing cfg = true
      /\ truthy (field req_body "transaction_id") = true).
Proof.
  split; intros Hanswer.
  - destruct (create_cases cfg provider req_body)
      as [[e H] | [H | [H | [H | (phone & x & Hvalid & [[Hauth H] | (auth & _ & _ & H)])]]]];
      rewrite H in Hanswer; cbn [fst] in Hanswer; try discriminate Hanswer.
    + split; [assumption|]. eauto.
    + destruct (create_settle_cases cfg (provider (payment_request auth phone x)))
        as [[e He] | [(rs & d & _ & _ & _ & _ & _ & He)
                     | (rs & d & _ & _ & _ & _ & _ & _ & _ & He)]];
        rewrite He in Hanswer; discriminate Hanswer.
  - destruct (verify_cases cfg provider req_body)
      as [[e H] | [[_ H] | [[Hauth H] | (tid & id & auth & _ & _ & _ & _ & _ & H)]]];
      rewrite H in Hanswer; cbn [fst] in Hanswer; try discriminate Hanswer.
    + split; [assumption|].
      destruct (nullish req_body) eqn:Hbody.
      * rewrite (verify_no_body _ _ _ Hbody) in H. discriminate H.
      * destruct (truthy (field req_body "transaction_id")) eqn:Ht; [reflexivity|].
        rewrite (verify_missing _ _ _ _ (get_field _ _ Hbody) Ht) in H.
        discriminate H.
    + destruct (verify_settle_cases cfg tid (provider (verification_request auth id)))
        as [[e He] | (rs & d & _ & _ & _ & _ & He)];
        rewrite He in Hanswer; discriminate Hanswer.
Qed.

Lemma config_error_only_when_unconfigured_witness :
  auth_id_missing unconfigured = true
  /\ exists phone parsedAmount,
       valid_initiate (initiation (JString (lit "0971234567")) (JString (lit "50.00")))
         phone parsedAmount.
Proof.
  exact (proj1 (config_error_only_when_unconfigured unconfigured (always initiated)
                  (initiation (JString (lit "0971234567")) (JString (lit "50.00"))))
           eq_refl).
Defined.

(** X22: an error that reaches the error-handling middleware is answered
    exactly as the [catch] blocks of the two handlers answer the same
    error, so what C9 says of the [catch] blocks holds for it: outside
    development the answer is the same for every error. *)
Theorem uncaught_errors_answered_alike (cfg : Config) (provider : Provider)
  (req_body : JsValue) (e : JsError) (t : Trace) :
  (create_body cfg provider req_body [] = (Throw e, t) ->
   fst (create_mobile_money_payment cfg provider req_body) = error_handler cfg e)
  /\ (verify_body cfg provider req_body [] = (Throw e, t) ->
      fst (verify_mobile_money_payment cfg provider req_body) = error_handler cfg e)
  /\ (is_development cfg = false ->
      forall e', error_handler cfg e = error_handler cfg e').
Proof.
  unfold create_mobile_money_payment, verify_mobile_money_payment, try_catch.
  split; [|split].
  - intros ->. reflexivity.
  - intros ->. reflexivity.
  - intros Hdev e'. unfold error_handler. rewrite Hdev. reflexivity.
Qed.

Lemma uncaught_errors_answered_alike_witness :
  fst (create_mobile_money_payment production (unreachable "fetch failed")
         (initiation (JString (lit "0971234567")) (JString (lit "50.00"))))
  = error_handler production (TypeError (lit "fetch failed"))
  /\ error_handler production (TypeError (lit "fetch failed"))
     = error_handler production (SyntaxError (lit "Unexpected token"))
.
Proof.
  split.
  - exact (proj1 (uncaught_errors_answered_alike production
                    (unreachable "fetch failed")
                    (initiation (JString (lit "0971234567")) (JString (lit "50.00")))
                    (TypeError (lit "fetch failed"))
                    [payment_request (lit "auth-0001") (lit "0971234567")
                       (parseFloat (lit "50.00"))])
             eq_refl).
  - exact (proj2 (proj2 (uncaught_errors_answered_alike production
                           (unreachable "fetch failed") JNull
                           (TypeError (lit "fetch failed")) []))
             eq_refl (SyntaxError (lit "Unexpected token"))).
Defined.
